(** * PetChat: the intake form and chat loop of [recommendation.py]

    The program is one Streamlit script.  Streamlit executes the whole
    script from its first line on every user interaction; the only value
    that survives from one execution to the next is [st.session_state].
    The embedding follows that: an execution of the script is a function
    from the session state, the values the browser's widgets hold and the
    process environment to an outcome, a new session state, the page that
    was drawn and a journal of the appends and model calls, in order. *)

From Stdlib Require Import String Ascii List Bool Arith Lia QArith_base.
Import ListNotations.
Local Close Scope Q_scope.
Local Open Scope list_scope.
Local Open Scope string_scope.

Set Implicit Arguments.
Local Set Warnings "-register-all".

(** ** Python values *)

Definition nl : string := String "010"%char EmptyString.

(** [bool(s)] for a [str]. *)
Definition truthy (s : string) : bool :=
  match s with
  | EmptyString => false
  | String _ _ => true
  end.

(** [x in xs] for a list of [str]. *)
Definition str_in (x : string) (xs : list string) : bool :=
  existsb (String.eqb x) xs.

(** A [dict] with [str] keys and [str] values, in insertion order. *)
Definition dict := list (string * string).

Fixpoint dict_get (d : dict) (k : string) : option string :=
  match d with
  | [] => None
  | (k', v) :: d' => if String.eqb k k' then Some v else dict_get d' k
  end.

(** [dict(d, **extra)] and [{**d, **extra}]: the keys of [extra] win. *)
Fixpoint dict_set (d : dict) (k v : string) : dict :=
  match d with
  | [] => [(k, v)]
  | (k', v') :: d' =>
      if String.eqb k k' then (k', v) :: d' else (k', v') :: dict_set d' k v
  end.

Definition dict_update (d extra : dict) : dict :=
  fold_left (fun acc kv => dict_set acc (fst kv) (snd kv)) extra d.

(** ** Data model *)

(** A chat message, the dict [{"role": ..., "content": ...}]. *)
Record Message := { role : string; content : string }.

(** [st.session_state]: a key is absent until the script assigns it. *)
Record SessionState := {
  form_submitted : option bool;
  pet_info : option string;
  messages : option (list Message)
}.

Definition fresh_session : SessionState :=
  {| form_submitted := None; pet_info := None; messages := None |}.

(** The messages LangChain's chat memory holds. *)
Inductive BaseMessage :=
| HumanMessage (text : string)
| AIMessage (text : string).

(** What the page shows, in the order the script draws it.  A [with]
    block is a node that holds what was drawn inside it. *)
Inductive Element :=
| Title (body : string)
| Markdown (body : string)
| Error (body : string)
| Warning (body : string)
| Subheader (body : string)
| WriteText (body : string)
| TextInput (label : string)
| TextArea (label : string)
| Selectbox (label : string) (options : list string)
| FormSubmitButton (label : string)
| ChatInput (placeholder : string)
| Form (key : string) (children : list Element)
| Expander (label : string) (expanded : bool) (children : list Element)
| ChatMessage (name : string) (children : list Element)
| Spinner (text : string) (children : list Element).

(** The effects whose order the specification speaks about. *)
Inductive Effect :=
| Appended (m : Message)
| Invoked (prompt : string).

(** ** The outside of the script *)

(** The hosted model: a prompt gives back text, or the call raises. *)
Definition LLM := string -> string + string.

(** The process environment after [load_dotenv()], and the constructor of
    the model client, which may raise. *)
Record Env := {
  getenv : string -> option string;
  ChatGoogleGenerativeAI : string -> Q -> option string -> string + LLM
}.

(** The values the widgets of the browser hold when the script runs.  A
    widget is identified by its label. *)
Record Frontend := {
  text_input : string -> string;
  text_area : string -> string;
  selectbox : string -> list string -> string;
  form_submit_button : string -> bool;
  chat_input : string -> option string
}.

(** ** The script monad *)

(** [st.stop()] and [st.rerun()] raise control exceptions that derive from
    [BaseException]; [except Exception] does not catch them. *)
Inductive Interrupt :=
| StopException
| RerunException
| Exception (e : string).

Inductive Outcome (A : Type) :=
| Returned (a : A)
| Interrupted (i : Interrupt).

Arguments Returned {A} a.
Arguments Interrupted {A} i.

Record World := {
  session_state : SessionState;
  memory : list BaseMessage;
  page : list Element;
  journal : list Effect
}.

Definition Script (A : Type) : Type := World -> Outcome A * World.

Definition ret {A} (a : A) : Script A := fun w => (Returned a, w).

Definition bind {A B} (m : Script A) (k : A -> Script B) : Script B :=
  fun w =>
    match m w with
    | (Returned a, w') => k a w'
    | (Interrupted i, w') => (Interrupted i, w')
    end.

Declare Scope script_scope.
Delimit Scope script_scope with script.
Notation "x <- m ;; k" := (bind m (fun x => k))
  (at level 61, m at next level, right associativity) : script_scope.
Notation "m ;; k" := (bind m (fun _ => k))
  (at level 61, right associativity) : script_scope.
Local Open Scope script_scope.

Definition raise {A} (i : Interrupt) : Script A :=
  fun w => (Interrupted i, w).

(** [try: body  except Exception as e: handler e]. *)
Definition try_except {A} (body : Script A) (handler : string -> Script A)
  : Script A :=
  fun w =>
    match body w with
    | (Interrupted (Exception e), w') => handler e w'
    | r => r
    end.

Definition when (b : bool) (m : Script unit) : Script unit :=
  if b then m else ret tt.

Fixpoint for_each {A} (xs : list A) (body : A -> Script unit) : Script unit :=
  match xs with
  | [] => ret tt
  | x :: xs' => body x ;; for_each xs' body
  end.

(** World updates. *)
Definition with_session (f : SessionState -> SessionState) (w : World) : World :=
  {| session_state := f (session_state w); memory := memory w;
     page := page w; journal := journal w |}.

Definition with_memory (f : list BaseMessage -> list BaseMessage) (w : World)
  : World :=
  {| session_state := session_state w; memory := f (memory w);
     page := page w; journal := journal w |}.

Definition with_page (f : list Element -> list Element) (w : World) : World :=
  {| session_state := session_state w; memory := memory w;
     page := f (page w); journal := journal w |}.

Definition with_journal (f : list Effect -> list Effect) (w : World) : World :=
  {| session_state := session_state w; memory := memory w;
     page := page w; journal := f (journal w) |}.

Definition draw (e : Element) : Script unit :=
  fun w => (Returned tt, with_page (fun p => (p ++ [e])%list) w).

Definition record (e : Effect) : Script unit :=
  fun w => (Returned tt, with_journal (fun j => (j ++ [e])%list) w).

(** [with container: body]: what [body] draws lands inside the container,
    also when [body] is interrupted half way. *)
Definition within {A} (container : list Element -> Element) (body : Script A)
  : Script A :=
  fun w =>
    let '(r, w') := body (with_page (fun _ => []) w) in
    (r, with_page (fun inner => (page w ++ [container inner])%list) w').

(** ** Streamlit *)

Definition st_stop {A} : Script A := raise StopException.
Definition st_rerun {A} : Script A := raise RerunException.

(** Page configuration draws nothing. *)
Definition st_set_page_config (page_title page_icon : string) : Script unit :=
  ret tt.

Definition st_title (body : string) : Script unit := draw (Title body).
Definition st_markdown (body : string) : Script unit := draw (Markdown body).
Definition st_error (body : string) : Script unit := draw (Error body).
Definition st_warning (body : string) : Script unit := draw (Warning body).
Definition st_subheader (body : string) : Script unit := draw (Subheader body).
Definition st_write (body : string) : Script unit := draw (WriteText body).

(** Reading and assigning the keys of [st.session_state]. *)
Definition session_has {A} (key : SessionState -> option A) : Script bool :=
  fun w =>
    (Returned (match key (session_state w) with Some _ => true | None => false end),
     w).

Definition session_get {A} (attr : string) (key : SessionState -> option A)
  : Script A :=
  fun w =>
    match key (session_state w) with
    | Some v => (Returned v, w)
    | None => (Interrupted (Exception ("AttributeError: " ++ attr)), w)
    end.

Definition set_form_submitted (v : bool) : Script unit :=
  fun w =>
    (Returned tt,
     with_session (fun s => {| form_submitted := Some v; pet_info := pet_info s;
                               messages := messages s |}) w).

Definition set_pet_info (v : string) : Script unit :=
  fun w =>
    (Returned tt,
     with_session (fun s => {| form_submitted := form_submitted s;
                               pet_info := Some v; messages := messages s |}) w).

Definition set_messages (v : list Message) : Script unit :=
  fun w =>
    (Returned tt,
     with_session (fun s => {| form_submitted := form_submitted s;
                               pet_info := pet_info s; messages := Some v |}) w).

(** [st.session_state.messages.append(m)]. *)
Definition messages_append (m : Message) : Script unit :=
  ms <- session_get "messages" messages ;;
  set_messages (ms ++ [m])%list ;;
  record (Appended m).

(** ** LangChain *)

(** [str.format] with named fields: the text between [{] and [}] is looked
    up among the keyword arguments.  (The template of this program has no
    doubled brace, so the escape is left out.) *)
Fixpoint format_from (s : string) (field : option string) (kwargs : dict)
  : option string :=
  match s, field with
  | EmptyString, None => Some EmptyString
  | EmptyString, Some _ => None
  | String c s', None =>
      if Ascii.eqb c "{" then format_from s' (Some EmptyString) kwargs
      else option_map (String c) (format_from s' None kwargs)
  | String c s', Some f =>
      if Ascii.eqb c "}" then
        match dict_get kwargs f, format_from s' None kwargs with
        | Some v, Some rest => Some (v ++ rest)
        | _, _ => None
        end
      else format_from s' (Some (f ++ String c EmptyString)) kwargs
  end.

Record PromptTemplate := {
  input_variables : list string;
  template_text : string
}.

Record ConversationBufferMemory := {
  memory_key : string;
  input_key : string;
  human_prefix : string;
  ai_prefix : string
}.

Record LLMChain := {
  chain_llm : LLM;
  chain_prompt : PromptTemplate;
  chain_verbose : bool;
  chain_memory : ConversationBufferMemory
}.

Definition dict_getitem (d : dict) (k : string) : Script string :=
  match dict_get d k with
  | Some v => ret v
  | None => raise (Exception ("KeyError: " ++ k))
  end.

(** [{k: inputs[k] for k in keys}]. *)
Fixpoint dict_select (inputs : dict) (keys : list string) : Script dict :=
  match keys with
  | [] => ret []
  | k :: keys' =>
      v <- dict_getitem inputs k ;;
      rest <- dict_select inputs keys' ;;
      ret ((k, v) :: rest)
  end.

Definition prompt_format (p : PromptTemplate) (kwargs : dict) : Script string :=
  match format_from (template_text p) None kwargs with
  | Some text => ret text
  | None => raise (Exception "KeyError")
  end.

(** [get_buffer_string]: one line per message, [prefix: text]. *)
Definition buffer_line (m : ConversationBufferMemory) (msg : BaseMessage)
  : string :=
  match msg with
  | HumanMessage text => human_prefix m ++ ": " ++ text
  | AIMessage text => ai_prefix m ++ ": " ++ text
  end.

Definition buffer_as_str (m : ConversationBufferMemory)
  (buffer : list BaseMessage) : string :=
  String.concat nl (map (buffer_line m) buffer).

Definition load_memory_variables (m : ConversationBufferMemory) : Script dict :=
  fun w => (Returned [(memory_key m, buffer_as_str m (memory w))], w).

Definition save_context (m : ConversationBufferMemory) (inputs outputs : dict)
  : Script unit :=
  input_str <- dict_getitem inputs (input_key m) ;;
  output_str <- dict_getitem outputs "text" ;;
  fun w =>
    (Returned tt,
     with_memory
       (fun b => (b ++ [HumanMessage input_str; AIMessage output_str])%list) w).

Definition llm_call (llm : LLM) (prompt : string) : Script string :=
  record (Invoked prompt) ;;
  match llm prompt with
  | inr text => ret text
  | inl e => raise (Exception e)
  end.

(** [LLMChain.invoke]: the memory variables join the inputs, the prompt is
    formatted and sent, and the new pair is saved to the memory once the
    model has answered. *)
Definition invoke (chain : LLMChain) (inputs : dict) : Script dict :=
  external_context <- load_memory_variables (chain_memory chain) ;;
  let inputs := dict_update inputs external_context in
  selected <- dict_select inputs (input_variables (chain_prompt chain)) ;;
  text_in <- prompt_format (chain_prompt chain) selected ;;
  text <- llm_call (chain_llm chain) text_in ;;
  let outputs := [("text", text)] in
  save_context (chain_memory chain) inputs outputs ;;
  ret (dict_update inputs outputs).

(** ** The script *)

Definition template : string :=
  nl ++ "You are a friendly and professional pet care expert. " ++ nl
  ++ "Use the information the user gave about their pet to provide tailored recommendations." ++ nl
  ++ nl
  ++ "Pet Info:" ++ nl
  ++ "{pet_info}" ++ nl
  ++ nl
  ++ "Conversation so far:" ++ nl
  ++ "{chat_history}" ++ nl
  ++ nl
  ++ "User's request: {human_input}" ++ nl
  ++ nl
  ++ "Give a comprehensive bulleted list of recommendations." ++ nl.

(** Lines 46-51: the settings of the memory object. *)
Definition buffer_memory : ConversationBufferMemory :=
  {| memory_key := "chat_history"; input_key := "human_input";
     human_prefix := "Human"; ai_prefix := "AI" |}.

(** Lines 53-56. *)
Definition prompt : PromptTemplate :=
  {| input_variables := ["pet_info"; "chat_history"; "human_input"];
     template_text := template |}.

Definition species_options : list string :=
  ["Please select..."; "Dog"; "Cat"; "Bird"; "Rabbit"; "Other"].

Definition dog_breeds : list string :=
  ["Please select...";
   "Labrador Retriever"; "German Shepherd"; "Golden Retriever";
   "Bulldog"; "Beagle"; "Poodle"; "Rottweiler";
   "Dachshund"; "Siberian Husky"; "Other"].

Definition cat_breeds : list string :=
  ["Please select...";
   "Persian Cat"; "Maine Coon"; "Siamese Cat";
   "British Shorthair"; "Bengal Cat"; "Sphynx"; "Ragdoll"; "Other"].

(** The local variables the form block leaves behind. *)
Record FormValues := {
  form_name : string;
  form_species : string;
  form_breed : string;
  form_age : string;
  form_behavior : string;
  form_diet : string;
  form_exercise : string;
  form_submit : bool
}.

(** The f-string of lines 126-127. *)
Definition profile_text (f : FormValues) : string :=
  "Name: " ++ form_name f ++ nl ++ "Species: " ++ form_species f ++ nl
  ++ "Breed: " ++ form_breed f ++ nl ++ "Age: " ++ form_age f ++ nl
  ++ "Behavior/Concerns: " ++ form_behavior f ++ nl
  ++ "Diet: " ++ form_diet f ++ nl ++ "Exercise: " ++ form_exercise f.

Definition greeting : Message :=
  {| role := "assistant";
     content := "Thanks! What recommendations do you want — diet, exercise, or wellness tips?" |}.

Section Execution.

Variable env : Env.
Variable fe : Frontend.

(** A widget draws itself and gives back the value the browser holds. *)
Definition st_text_input (label : string) : Script string :=
  draw (TextInput label) ;; ret (text_input fe label).

Definition st_text_area (label : string) : Script string :=
  draw (TextArea label) ;; ret (text_area fe label).

Definition st_selectbox (label : string) (options : list string)
  : Script string :=
  draw (Selectbox label options) ;; ret (selectbox fe label options).

Definition st_form_submit_button (label : string) : Script bool :=
  draw (FormSubmitButton label) ;; ret (form_submit_button fe label).

Definition st_chat_input (placeholder : string) : Script (option string) :=
  draw (ChatInput placeholder) ;; ret (chat_input fe placeholder).

(** Lines 19-28. *)
Definition initialise_llm : Script LLM :=
  try_except
    (let api_key := getenv env "GOOGLE_API_KEY" in
     when (negb (match api_key with Some k => truthy k | None => false end))
       (st_error "The GOOGLE_API_KEY environment variable is not set. Please check your .env file." ;;
        st_stop) ;;
     match ChatGoogleGenerativeAI env "gemini-1.5-flash-latest" (7 # 10)%Q api_key with
     | inr llm => ret llm
     | inl e => raise (Exception e)
     end)
    (fun e => st_error ("Failed to initialize the LLM: " ++ e) ;; st_stop).

(** Line 46: the constructor makes a new memory object, whose buffer is
    empty, and the script binds it to [memory]. *)
Definition new_memory (m : ConversationBufferMemory)
  : Script ConversationBufferMemory :=
  fun w => (Returned m, with_memory (fun _ => []) w).

(** Lines 46-63. *)
Definition langchain_components (llm : LLM) : Script LLMChain :=
  memory <- new_memory buffer_memory ;;
  ret {| chain_llm := llm; chain_prompt := prompt; chain_verbose := true;
         chain_memory := memory |}.

(** Lines 66-71. *)
Definition init_session_state : Script unit :=
  has <- session_has form_submitted ;;
  when (negb has) (set_form_submitted false) ;;
  has <- session_has pet_info ;;
  when (negb has) (set_pet_info "") ;;
  has <- session_has messages ;;
  when (negb has) (set_messages []).

(** Lines 87-97 and 99-108, the same block for dogs and for cats. *)
Definition breed_picker (label : string) (breeds : list string)
  : Script string :=
  selected_breed <- st_selectbox label breeds ;;
  other_breed <- (if selected_breed =? "Other"
                  then st_text_input "Please type the breed"
                  else ret "") ;;
  ret (if selected_breed =? "Other" then other_breed else selected_breed).

(** Lines 75-118. *)
Definition pet_info_form : Script FormValues :=
  within (Form "pet_info_form")
    (st_subheader "Tell me about your pet" ;;
     name <- st_text_input "What's their name?" ;;
     species <- st_selectbox "What species are they?" species_options ;;
     breed <- (if species =? "Dog" then
                 breed_picker "Select Dog Breed" dog_breeds
               else if species =? "Cat" then
                 breed_picker "Select Cat Breed" cat_breeds
               else if str_in species ["Bird"; "Rabbit"; "Other"] then
                 st_text_input "Please type the breed/species"
               else ret "") ;;
     age <- st_text_input "How old are they?" ;;
     behavior <- st_text_area "Behavior/Health concerns?" ;;
     diet <- st_text_area "Current diet?" ;;
     exercise <- st_text_area "Current exercise routine?" ;;
     submit <- st_form_submit_button "Save & Continue" ;;
     ret {| form_name := name; form_species := species; form_breed := breed;
            form_age := age; form_behavior := behavior; form_diet := diet;
            form_exercise := exercise; form_submit := submit |}).

(** Line 121. *)
Definition incomplete (f : FormValues) : bool :=
  (form_species f =? "Please select...")
  || (negb (truthy (form_breed f)) || (form_breed f =? "Please select..."))
  || negb (truthy (form_age f)).

(** Lines 120-133. *)
Definition on_submit (f : FormValues) : Script unit :=
  if incomplete f then
    st_warning "Please provide species, breed, and age."
  else
    set_form_submitted true ;;
    set_pet_info (profile_text f) ;;
    messages_append greeting ;;
    st_rerun.

(** Lines 75-133. *)
Definition form_ui : Script unit :=
  f <- pet_info_form ;;
  when (form_submit f) (on_submit f).

(** Lines 148-161. *)
Definition chat_turn (conversation_chain : LLMChain) (user_input : string)
  : Script unit :=
  messages_append {| role := "user"; content := user_input |} ;;
  within (ChatMessage "user") (st_write user_input) ;;
  response <- within (Spinner "Thinking...")
                (profile <- session_get "pet_info" pet_info ;;
                 result <- invoke conversation_chain
                             [("pet_info", profile);
                              ("human_input", user_input)] ;;
                 dict_getitem result "text") ;;
  messages_append {| role := "assistant"; content := response |} ;;
  within (ChatMessage "assistant") (st_write response).

(** Lines 137-161. *)
Definition chat_interface (conversation_chain : LLMChain) : Script unit :=
  within (Expander "Pet Information (saved from form)" true)
    (profile <- session_get "pet_info" pet_info ;;
     st_markdown ("```" ++ nl ++ profile ++ nl ++ "```")) ;;
  past <- session_get "messages" messages ;;
  for_each past
    (fun msg => within (ChatMessage (role msg)) (st_write (content msg))) ;;
  user_input <- st_chat_input "Type your request..." ;;
  match user_input with
  | Some user_input =>
      if truthy user_input then chat_turn conversation_chain user_input
      else ret tt
  | None => ret tt
  end.

(** The whole of [recommendation.py], top to bottom. *)
Definition script : Script unit :=
  st_set_page_config "Personalized Pet Care Chat" "🐾" ;;
  st_title "🐾 Personalized Pet Care Chat" ;;
  st_markdown "I'm here to help! Please tell me about your pet, then I'll give tailored recommendations!" ;;
  llm <- initialise_llm ;;
  conversation_chain <- langchain_components llm ;;
  init_session_state ;;
  submitted <- session_get "form_submitted" form_submitted ;;
  if negb submitted then form_ui else chat_interface conversation_chain.

End Execution.

(** One execution of the script: Python's globals start anew, the session
    state is the one the previous execution left. *)
Definition run_script (env : Env) (fe : Frontend) (s : SessionState)
  : Outcome unit * World :=
  script env fe
    {| session_state := s; memory := []; page := []; journal := [] |}.

(** ** Sessions *)

(** A button is true for the one execution its click starts, and a chat
    input hands its text over once; the other widgets keep their values. *)
Definition settled (fe : Frontend) : Frontend :=
  {| text_input := text_input fe; text_area := text_area fe;
     selectbox := selectbox fe;
     form_submit_button := fun _ => false;
     chat_input := fun _ => None |}.

(** A user interaction: the script runs, and runs once more at once when
    it asked for a rerun. *)
Definition interact (env env' : Env) (fe : Frontend) (s : SessionState)
  : Outcome unit * World :=
  match run_script env fe s with
  | (Interrupted RerunException, w) =>
      run_script env' (settled fe) (session_state w)
  | r => r
  end.

(** The session state a sequence of executions leaves. *)
Fixpoint run_session (runs : list (Env * Frontend)) (s : SessionState)
  : SessionState :=
  match runs with
  | [] => s
  | (env, fe) :: rest =>
      run_session rest (session_state (snd (run_script env fe s)))
  end.

(** ** Vocabulary of the statements *)

(** A session state with its three keys assigned. *)
Definition established (submitted : bool) (profile : string)
  (history : list Message) : SessionState :=
  {| form_submitted := Some submitted; pet_info := Some profile;
     messages := Some history |}.

(** The defaults of lines 66-71, for the keys that are absent. *)
Definition with_defaults (s : SessionState) : SessionState :=
  {| form_submitted :=
       Some (match form_submitted s with Some b => b | None => false end);
     pet_info := Some (match pet_info s with Some p => p | None => "" end);
     messages := Some (match messages s with Some ms => ms | None => [] end) |}.

(** What every execution draws first. *)
Definition header : list Element :=
  [Title "🐾 Personalized Pet Care Chat";
   Markdown "I'm here to help! Please tell me about your pet, then I'll give tailored recommendations!"].

(** The credential is in the environment and the client is constructed. *)
Definition starts (env : Env) (llm : LLM) : Prop :=
  exists api_key,
    getenv env "GOOGLE_API_KEY" = Some api_key
    /\ truthy api_key = true
    /\ ChatGoogleGenerativeAI env "gemini-1.5-flash-latest" (7 # 10)%Q
         (Some api_key) = inr llm.

(** The template with its three slots filled. *)
Definition prompt_text (profile history request : string) : string :=
  nl ++ "You are a friendly and professional pet care expert. " ++ nl
  ++ "Use the information the user gave about their pet to provide tailored recommendations." ++ nl
  ++ nl
  ++ "Pet Info:" ++ nl
  ++ profile ++ nl
  ++ nl
  ++ "Conversation so far:" ++ nl
  ++ history ++ nl
  ++ nl
  ++ "User's request: " ++ request ++ nl
  ++ nl
  ++ "Give a comprehensive bulleted list of recommendations." ++ nl.

(** The values the form block computes from the widgets. *)
Definition picked_breed (fe : Frontend) (label : string) (breeds : list string)
  : string :=
  let selected_breed := selectbox fe label breeds in
  if selected_breed =? "Other" then text_input fe "Please type the breed"
  else selected_breed.

Definition entered (fe : Frontend) : FormValues :=
  let species := selectbox fe "What species are they?" species_options in
  {| form_name := text_input fe "What's their name?";
     form_species := species;
     form_breed :=
       if species =? "Dog" then picked_breed fe "Select Dog Breed" dog_breeds
       else if species =? "Cat" then
         picked_breed fe "Select Cat Breed" cat_breeds
       else if str_in species ["Bird"; "Rabbit"; "Other"] then
         text_input fe "Please type the breed/species"
       else "";
     form_age := text_input fe "How old are they?";
     form_behavior := text_area fe "Behavior/Health concerns?";
     form_diet := text_area fe "Current diet?";
     form_exercise := text_area fe "Current exercise routine?";
     form_submit := form_submit_button fe "Save & Continue" |}.

(** The chat view of a session state: the profile card, one bubble per
    message, the input box. *)
Definition bubble (m : Message) : Element :=
  ChatMessage (role m) [WriteText (content m)].

Definition chat_view (profile : string) (history : list Message)
  : list Element :=
  (header
   ++ [Expander "Pet Information (saved from form)" true
         [Markdown ("```" ++ nl ++ profile ++ nl ++ "```")]]
   ++ map bubble history
   ++ [ChatInput "Type your request..."])%list.

Definition is_form (e : Element) : bool :=
  match e with
  | Form _ _ => true
  | _ => false
  end.

Definition user_says (text : string) : Message :=
  {| role := "user"; content := text |}.

Definition assistant_says (text : string) : Message :=
  {| role := "assistant"; content := text |}.

(** The chain the script builds around a model client. *)
Definition chain_of (llm : LLM) : LLMChain :=
  {| chain_llm := llm; chain_prompt := prompt; chain_verbose := true;
     chain_memory := buffer_memory |}.

(** How lines 19-28 end: with the client, or with the message of the
    error box the script shows before it stops. *)
Definition boot (env : Env) : string + LLM :=
  match getenv env "GOOGLE_API_KEY" with
  | Some api_key =>
      if truthy api_key then
        match ChatGoogleGenerativeAI env "gemini-1.5-flash-latest" (7 # 10)%Q
                (Some api_key) with
        | inr llm => inr llm
        | inl e => inl ("Failed to initialize the LLM: " ++ e)
        end
      else inl "The GOOGLE_API_KEY environment variable is not set. Please check your .env file."
  | None => inl "The GOOGLE_API_KEY environment variable is not set. Please check your .env file."
  end.

(** The two ways the start of the script fails, with the message shown. *)
Inductive startup_failure (env : Env) : string -> Prop :=
| credential_absent :
    getenv env "GOOGLE_API_KEY" = None
    \/ getenv env "GOOGLE_API_KEY" = Some "" ->
    startup_failure env
      "The GOOGLE_API_KEY environment variable is not set. Please check your .env file."
| construction_raised api_key e :
    getenv env "GOOGLE_API_KEY" = Some api_key ->
    truthy api_key = true ->
    ChatGoogleGenerativeAI env "gemini-1.5-flash-latest" (7 # 10)%Q
      (Some api_key) = inl e ->
    startup_failure env ("Failed to initialize the LLM: " ++ e).

(** The worlds a sequence of executions leaves, one per execution, and
    the effects of the whole sequence in order. *)
Fixpoint executions (runs : list (Env * Frontend)) (s : SessionState)
  : list World :=
  match runs with
  | [] => []
  | (env, fe) :: rest =>
      let w := snd (run_script env fe s) in
      w :: executions rest (session_state w)
  end.

Definition session_journal (runs : list (Env * Frontend)) (s : SessionState)
  : list Effect :=
  flat_map journal (executions runs s).

(** A chat turn that the model answers: the execution starts, the chat box
    hands over a request, and the model returns a reply to the prompt the
    script sends. *)
Record Turn := {
  turn_env : Env;
  turn_fe : Frontend;
  turn_request : string;
  turn_reply : string
}.

Definition answered (profile : string) (t : Turn) : Prop :=
  exists llm,
    starts (turn_env t) llm
    /\ chat_input (turn_fe t) "Type your request..." = Some (turn_request t)
    /\ turn_request t <> ""
    /\ llm (prompt_text profile "" (turn_request t)) = inr (turn_reply t).

Definition turn_run (t : Turn) : Env * Frontend := (turn_env t, turn_fe t).

Definition exchange (t : Turn) : list Message :=
  [user_says (turn_request t); assistant_says (turn_reply t)].

Definition turn_effects (profile : string) (t : Turn) : list Effect :=
  [Appended (user_says (turn_request t));
   Invoked (prompt_text profile "" (turn_request t));
   Appended (assistant_says (turn_reply t))].

(** An execution of the chat branch that starts and is handed a
    request. *)
Definition chat_submitted (run : Env * Frontend) (request : string) : Prop :=
  (exists llm, starts (fst run) llm)
  /\ chat_input (snd run) "Type your request..." = Some request
  /\ request <> "".

(** The order the specification states for the messages stored after
    [history] once the chat box has handed over [requests], whatever the
    model did: the request and the reply of each turn, turn after turn. *)
Definition stated_order (history : list Message) (requests : list string)
  (stored : list Message) : Prop :=
  exists replies,
    length replies = length requests
    /\ stored
       = (history
          ++ flat_map
               (fun turn => [user_says (fst turn); assistant_says (snd turn)])
               (combine requests replies))%list.

(** The form scenarios of the specification. *)
Definition beagle_scenario (fe : Frontend) : Prop :=
  selectbox fe "What species are they?" species_options = "Dog"
  /\ selectbox fe "Select Dog Breed" dog_breeds = "Beagle"
  /\ text_input fe "How old are they?" = "3"
  /\ form_submit_button fe "Save & Continue" = true.

Definition catahoula_scenario (fe : Frontend) : Prop :=
  selectbox fe "What species are they?" species_options = "Dog"
  /\ selectbox fe "Select Dog Breed" dog_breeds = "Other"
  /\ text_input fe "Please type the breed" = "Catahoula Leopard Dog"
  /\ text_input fe "How old are they?" = "5"
  /\ form_submit_button fe "Save & Continue" = true.

(** The breed picker of a dog or a cat stands on "Other" and the typed
    breed is empty. *)
Definition other_left_empty (fe : Frontend) : Prop :=
  ((selectbox fe "What species are they?" species_options = "Dog"
    /\ selectbox fe "Select Dog Breed" dog_breeds = "Other")
   \/ (selectbox fe "What species are they?" species_options = "Cat"
       /\ selectbox fe "Select Cat Breed" cat_breeds = "Other"))
  /\ text_input fe "Please type the breed" = "".

(** ** Sample inputs *)

Module Sample.

Definition advice : LLM := fun _ => inr "Two meals a day.".

Definition out_of_quota : LLM := fun _ => inl "429 quota exceeded".

Definition env_with (llm : LLM) : Env :=
  {| getenv := fun k => if k =? "GOOGLE_API_KEY" then Some "secret" else None;
     ChatGoogleGenerativeAI := fun _ _ _ => inr llm |}.

Definition env_without_key : Env :=
  {| getenv := fun _ => None;
     ChatGoogleGenerativeAI := fun _ _ _ => inr advice |}.

Definition env_bad_key : Env :=
  {| getenv := fun k => if k =? "GOOGLE_API_KEY" then Some "wrong" else None;
     ChatGoogleGenerativeAI := fun _ _ _ => inl "API key not valid" |}.

(** The form with a name, a species, a picked breed, a typed breed and an
    age, the other fields empty, and the button pressed. *)
Definition form_with (species selected typed age : string) : Frontend :=
  {| text_input :=
       fun label =>
         if label =? "What's their name?" then "Rex"
         else if label =? "How old are they?" then age
         else typed;
     text_area := fun _ => "";
     selectbox :=
       fun label _ =>
         if label =? "What species are they?" then species else selected;
     form_submit_button := fun _ => true;
     chat_input := fun _ => None |}.

(** The chat box with or without a request. *)
Definition chat_with (request : option string) : Frontend :=
  {| text_input := fun _ => ""; text_area := fun _ => "";
     selectbox := fun _ _ => "Please select...";
     form_submit_button := fun _ => false;
     chat_input := fun _ => request |}.

Definition ragdoll : string :=
  "Name: Momo" ++ nl ++ "Species: Cat" ++ nl ++ "Breed: Ragdoll" ++ nl
  ++ "Age: 1" ++ nl ++ "Behavior/Concerns: " ++ nl ++ "Diet: " ++ nl
  ++ "Exercise: ".

Definition asks (request : string) : Turn :=
  {| turn_env := env_with advice; turn_fe := chat_with (Some request);
     turn_request := request; turn_reply := "Two meals a day." |}.

End Sample.

(** ** Vocabulary of the further properties *)

(** The widget with this label. *)
Definition has_label (label : string) (e : Element) : bool :=
  match e with
  | TextInput l | TextArea l | FormSubmitButton l | ChatInput l
  | Selectbox l _ => label =? l
  | _ => false
  end.

Definition is_chat_input (e : Element) : bool :=
  match e with
  | ChatInput _ => true
  | _ => false
  end.

Definition is_invocation (e : Effect) : bool :=
  match e with
  | Invoked _ => true
  | Appended _ => false
  end.

(** The two roles of the data model. *)
Definition known_role (m : Message) : Prop :=
  role m = "user" \/ role m = "assistant".

(** What one chat execution can add to the message list. *)
Definition turn_addition (later : list Message) : Prop :=
  later = []
  \/ (exists request, later = [user_says request])
  \/ (exists request text,
        later = [user_says request; assistant_says text]).

(** The states a session that began with no key assigned can be in. *)
Definition session_invariant (s : SessionState) : Prop :=
  s = fresh_session
  \/ s = established false "" []
  \/ exists fe chat,
       s = established true (profile_text (entered fe)) (greeting :: chat)
       /\ incomplete (entered fe) = false
       /\ Forall known_role chat.

(** * Properties *)

(** Unfolds the monad and the Streamlit primitives, and nothing of the
    strings. *)
Ltac step_script :=
  cbv [bind ret raise when try_except within draw record
       with_page with_session with_memory with_journal
       st_stop st_rerun st_set_page_config st_title st_markdown st_error
       st_warning st_subheader st_write st_text_input st_text_area
       st_selectbox st_form_submit_button st_chat_input
       session_has session_get set_form_submitted set_pet_info set_messages
       messages_append new_memory langchain_components
       session_state memory page journal
       form_submitted pet_info messages].

Lemma template_format (profile history request : string) :
  format_from template None
    [("pet_info", profile); ("chat_history", history);
     ("human_input", request)]
  = Some (prompt_text profile history request).
Proof. reflexivity. Qed.

Lemma invoke_spec llm profile request s mem pg jr :
  invoke (chain_of llm) [("pet_info", profile); ("human_input", request)]
    {| session_state := s; memory := mem; page := pg; journal := jr |}
  = let history := buffer_as_str buffer_memory mem in
    let sent := prompt_text profile history request in
    match llm sent with
    | inr text =>
        (Returned [("pet_info", profile); ("human_input", request);
                   ("chat_history", history); ("text", text)],
         {| session_state := s;
            memory := (mem ++ [HumanMessage request; AIMessage text])%list;
            page := pg;
            journal := (jr ++ [Invoked sent])%list |})
    | inl e =>
        (Interrupted (Exception e),
         {| session_state := s; memory := mem; page := pg;
            journal := (jr ++ [Invoked sent])%list |})
    end.
Proof.
  unfold invoke, load_memory_variables, save_context, llm_call, prompt_format,
    chain_of.
  step_script.
  cbn [chain_memory chain_prompt chain_llm memory_key input_key buffer_memory
       prompt input_variables template_text dict_update fold_left fst snd
       dict_set dict_select dict_getitem dict_get String.eqb Ascii.eqb
       Bool.eqb].
  step_script.
  rewrite template_format.
  destruct (llm _); reflexivity.
Qed.

Lemma chat_turn_spec llm request fs profile history mem pg jr :
  chat_turn (chain_of llm) request
    {| session_state :=
         {| form_submitted := fs; pet_info := Some profile;
            messages := Some history |};
       memory := mem; page := pg; journal := jr |}
  = let sent := prompt_text profile (buffer_as_str buffer_memory mem) request in
    match llm sent with
    | inr text =>
        (Returned tt,
         {| session_state :=
              {| form_submitted := fs; pet_info := Some profile;
                 messages :=
                   Some ((history ++ [user_says request])
                           ++ [assistant_says text])%list |};
            memory := (mem ++ [HumanMessage request; AIMessage text])%list;
            page :=
              (((pg ++ [ChatMessage "user" [WriteText request]])
                  ++ [Spinner "Thinking..." []])
                 ++ [ChatMessage "assistant" [WriteText text]])%list;
            journal :=
              (((jr ++ [Appended (user_says request)]) ++ [Invoked sent])
                 ++ [Appended (assistant_says text)])%list |})
    | inl e =>
        (Interrupted (Exception e),
         {| session_state :=
              {| form_submitted := fs; pet_info := Some profile;
                 messages := Some (history ++ [user_says request])%list |};
            memory := mem;
            page :=
              ((pg ++ [ChatMessage "user" [WriteText request]])
                 ++ [Spinner "Thinking..." []])%list;
            journal :=
              ((jr ++ [Appended (user_says request)]) ++ [Invoked sent])%list |})
    end.
Proof.
  unfold chat_turn.
  step_script.
  rewrite invoke_spec.
  cbv zeta.
  destruct (llm _); reflexivity.
Qed.

Lemma for_each_bubbles (past : list Message) s mem pg jr :
  for_each past
    (fun msg => within (ChatMessage (role msg)) (st_write (content msg)))
    {| session_state := s; memory := mem; page := pg; journal := jr |}
  = (Returned tt,
     {| session_state := s; memory := mem;
        page := (pg ++ map bubble past)%list; journal := jr |}).
Proof.
  revert pg.
  induction past as [|m past IH]; intros pg.
  - cbn [for_each map]. rewrite app_nil_r. reflexivity.
  - cbn [for_each map]. unfold bind at 1.
    replace (within (ChatMessage (role m)) (st_write (content m))
               {| session_state := s; memory := mem; page := pg;
                  journal := jr |})
      with (Returned tt,
            {| session_state := s; memory := mem;
               page := (pg ++ [bubble m])%list; journal := jr |})
      by reflexivity.
    rewrite IH, <- app_assoc. reflexivity.
Qed.

Lemma chat_interface_spec fe llm fs profile history mem jr pg :
  chat_interface fe (chain_of llm)
    {| session_state :=
         {| form_submitted := fs; pet_info := Some profile;
            messages := Some history |};
       memory := mem; page := pg; journal := jr |}
  = let drawn :=
      {| session_state :=
           {| form_submitted := fs; pet_info := Some profile;
              messages := Some history |};
         memory := mem;
         page :=
           (((pg ++ [Expander "Pet Information (saved from form)" true
                      [Markdown ("```" ++ nl ++ profile ++ nl ++ "```")]])
               ++ map bubble history)
              ++ [ChatInput "Type your request..."])%list;
         journal := jr |} in
    match chat_input fe "Type your request..." with
    | Some request =>
        if truthy request then chat_turn (chain_of llm) request drawn
        else (Returned tt, drawn)
    | None => (Returned tt, drawn)
    end.
Proof.
  unfold chat_interface.
  unfold bind at 1. unfold within at 1.
  step_script.
  rewrite for_each_bubbles.
  destruct (chat_input fe "Type your request...") as [request|];
    [destruct (truthy request)|]; reflexivity.
Qed.

Lemma initialise_llm_spec env w :
  initialise_llm env w
  = match boot env with
    | inr llm => (Returned llm, w)
    | inl msg =>
        (Interrupted StopException,
         with_page (fun pg => (pg ++ [Error msg])%list) w)
    end.
Proof.
  destruct w as [s mem pg jr].
  unfold initialise_llm, boot. step_script.
  destruct (getenv env "GOOGLE_API_KEY") as [k|]; [|reflexivity].
  destruct (truthy k); cbn [negb]; [|reflexivity].
  destruct (ChatGoogleGenerativeAI _ _ _ _); reflexivity.
Qed.

Lemma starts_boot env llm : starts env llm <-> boot env = inr llm.
Proof.
  unfold starts, boot. split.
  - intros (k & -> & -> & ->). reflexivity.
  - destruct (getenv env "GOOGLE_API_KEY") as [k|]; [|discriminate].
    destruct (truthy k) eqn:Hk; [|discriminate].
    destruct (ChatGoogleGenerativeAI _ _ _ _) as [e|llm'] eqn:Hc;
      [discriminate|].
    intros H; injection H as <-. exists k. auto.
Qed.

Lemma init_session_state_spec w :
  init_session_state w = (Returned tt, with_session with_defaults w).
Proof.
  destruct w as [[fs pi ms] mem pg jr].
  destruct fs, pi, ms; reflexivity.
Qed.

Lemma run_script_spec env fe s :
  run_script env fe s
  = match boot env with
    | inr llm =>
        (if match form_submitted s with Some b => b | None => false end
         then chat_interface fe (chain_of llm)
         else form_ui fe)
          {| session_state := with_defaults s; memory := [];
             page := header; journal := [] |}
    | inl msg =>
        (Interrupted StopException,
         {| session_state := s; memory := [];
            page := (header ++ [Error msg])%list; journal := [] |})
    end.
Proof.
  unfold run_script, script.
  unfold st_set_page_config, st_title, st_markdown.
  unfold bind at 1. unfold ret at 1.
  unfold bind at 1. unfold draw at 1.
  unfold bind at 1. unfold draw at 1.
  unfold bind at 1. rewrite initialise_llm_spec.
  destruct (boot env) as [msg|llm]; [reflexivity|].
  unfold bind at 1. unfold langchain_components at 1. 
  unfold bind at 1. unfold new_memory at 1. unfold ret at 1.
  unfold bind at 1. rewrite init_session_state_spec.
  destruct s as [fs pi ms].
  destruct fs as [[|]|]; reflexivity.
Qed.

Lemma pet_info_form_spec fe w :
  exists widgets,
    pet_info_form fe w
    = (Returned (entered fe),
       with_page (fun pg => (pg ++ [Form "pet_info_form" widgets])%list) w).
Proof.
  destruct w as [s mem pg jr].
  unfold pet_info_form, entered, breed_picker, picked_breed.
  step_script.
  destruct (selectbox fe "What species are they?" species_options =? "Dog").
  - destruct (selectbox fe "Select Dog Breed" dog_breeds =? "Other");
      eexists; reflexivity.
  - destruct (selectbox fe "What species are they?" species_options =? "Cat").
    + destruct (selectbox fe "Select Cat Breed" cat_breeds =? "Other");
        eexists; reflexivity.
    + destruct (str_in _ _); eexists; reflexivity.
Qed.

Lemma truthy_false s : truthy s = false <-> s = "".
Proof. destruct s; cbn; split; congruence. Qed.

Lemma truthy_true s : truthy s = true <-> s <> "".
Proof. destruct s; cbn; split; congruence. Qed.

Lemma incomplete_true f :
  incomplete f = true
  <-> form_species f = "Please select..."
      \/ form_breed f = ""
      \/ form_breed f = "Please select..."
      \/ form_age f = "".
Proof.
  unfold incomplete.
  rewrite !orb_true_iff, !negb_true_iff, !truthy_false, !String.eqb_eq.
  tauto.
Qed.

Lemma incomplete_false f :
  incomplete f = false
  <-> form_species f <> "Please select..."
      /\ form_breed f <> ""
      /\ form_breed f <> "Please select..."
      /\ form_age f <> "".
Proof.
  unfold incomplete.
  rewrite !orb_false_iff, !negb_false_iff, !truthy_true, !String.eqb_neq.
  tauto.
Qed.

Lemma form_ui_spec fe submitted profile history :
  exists widgets,
    form_ui fe
      {| session_state := established submitted profile history;
         memory := []; page := header; journal := [] |}
    = let drawn := (header ++ [Form "pet_info_form" widgets])%list in
      if form_submit_button fe "Save & Continue" then
        if incomplete (entered fe) then
          (Returned tt,
           {| session_state := established submitted profile history;
              memory := [];
              page :=
                (drawn ++ [Warning "Please provide species, breed, and age."])%list;
              journal := [] |})
        else
          (Interrupted RerunException,
           {| session_state :=
                established true (profile_text (entered fe))
                  (history ++ [greeting]);
              memory := []; page := drawn;
              journal := [Appended greeting] |})
      else
        (Returned tt,
         {| session_state := established submitted profile history;
            memory := []; page := drawn; journal := [] |}).
Proof.
  destruct (pet_info_form_spec fe
              {| session_state := established submitted profile history;
                 memory := []; page := header; journal := [] |})
    as [widgets Hform].
  exists widgets.
  unfold form_ui. unfold bind at 1. rewrite Hform.
  change (form_submit (entered fe))
    with (form_submit_button fe "Save & Continue").
  unfold on_submit.
  destruct (form_submit_button fe "Save & Continue"); [|reflexivity].
  destruct (incomplete (entered fe)); reflexivity.
Qed.

Lemma with_defaults_established b p ms :
  with_defaults (established b p ms) = established b p ms.
Proof. reflexivity. Qed.

Lemma chat_view_assoc profile history :
  (((header
       ++ [Expander "Pet Information (saved from form)" true
             [Markdown ("```" ++ nl ++ profile ++ nl ++ "```")]])
      ++ map bubble history)
     ++ [ChatInput "Type your request..."])%list
  = chat_view profile history.
Proof. unfold chat_view. rewrite <- !app_assoc. reflexivity. Qed.

Lemma run_chat_spec env llm fe profile history :
  starts env llm ->
  run_script env fe (established true profile history)
  = let drawn :=
      {| session_state := established true profile history;
         memory := []; page := chat_view profile history; journal := [] |} in
    match chat_input fe "Type your request..." with
    | Some request =>
        if truthy request then chat_turn (chain_of llm) request drawn
        else (Returned tt, drawn)
    | None => (Returned tt, drawn)
    end.
Proof.
  intros Hstart. apply starts_boot in Hstart.
  rewrite run_script_spec, Hstart.
  cbn [form_submitted established].
  rewrite with_defaults_established.
  unfold established at 1.
  rewrite chat_interface_spec. cbv zeta.
  rewrite chat_view_assoc. reflexivity.
Qed.

Lemma run_form_spec env llm fe profile history :
  starts env llm ->
  exists widgets,
    run_script env fe (established false profile history)
    = let drawn := (header ++ [Form "pet_info_form" widgets])%list in
      if form_submit_button fe "Save & Continue" then
        if incomplete (entered fe) then
          (Returned tt,
           {| session_state := established false profile history;
              memory := [];
              page :=
                (drawn ++ [Warning "Please provide species, breed, and age."])%list;
              journal := [] |})
        else
          (Interrupted RerunException,
           {| session_state :=
                established true (profile_text (entered fe))
                  (history ++ [greeting]);
              memory := []; page := drawn;
              journal := [Appended greeting] |})
      else
        (Returned tt,
         {| session_state := established false profile history;
            memory := []; page := drawn; journal := [] |}).
Proof.
  intros Hstart. apply starts_boot in Hstart.
  destruct (form_ui_spec fe false profile history) as [widgets Hui].
  exists widgets.
  rewrite run_script_spec, Hstart.
  cbn [form_submitted established].
  rewrite with_defaults_established. exact Hui.
Qed.

(** C1.  A form submitted while the species selector is on its placeholder,
    or the breed is empty or the placeholder, or the age is empty, is
    rejected: the execution ends after drawing the warning under the form,
    [form_submitted] stays false, [pet_info] and the message list are what
    they were, and the journal holds no append. *)
Theorem incomplete_form_is_rejected env llm fe profile history :
  starts env llm ->
  form_submit_button fe "Save & Continue" = true ->
  form_species (entered fe) = "Please select..."
  \/ form_breed (entered fe) = ""
  \/ form_breed (entered fe) = "Please select..."
  \/ form_age (entered fe) = "" ->
  exists widgets,
    run_script env fe (established false profile history)
    = (Returned tt,
       {| session_state := established false profile history;
          memory := [];
          page :=
            (header
             ++ [Form "pet_info_form" widgets;
                 Warning "Please provide species, breed, and age."])%list;
          journal := [] |}).
Proof.
  intros Hstart Hsubmit Hmissing.
  destruct (run_form_spec fe profile history Hstart) as [widgets Hrun].
  exists widgets. rewrite Hrun. cbv zeta.
  apply incomplete_true in Hmissing.
  rewrite Hsubmit, Hmissing, <- app_assoc. reflexivity.
Qed.

Lemma incomplete_form_is_rejected_witness :
  starts (Sample.env_with Sample.advice) Sample.advice
  /\ form_submit_button (Sample.form_with "Please select..." "" "" "2")
       "Save & Continue" = true
  /\ (form_species (entered (Sample.form_with "Please select..." "" "" "2"))
      = "Please select..."
      \/ form_breed (entered (Sample.form_with "Please select..." "" "" "2"))
         = ""
      \/ form_breed (entered (Sample.form_with "Please select..." "" "" "2"))
         = "Please select..."
      \/ form_age (entered (Sample.form_with "Please select..." "" "" "2"))
         = "")
  /\ exists widgets,
       run_script (Sample.env_with Sample.advice)
         (Sample.form_with "Please select..." "" "" "2")
         (established false "" [])
       = (Returned tt,
          {| session_state := established false "" [];
             memory := [];
             page :=
               (header
                ++ [Form "pet_info_form" widgets;
                    Warning "Please provide species, breed, and age."])%list;
             journal := [] |}).
Proof.
  assert (Hstart : starts (Sample.env_with Sample.advice) Sample.advice)
    by (exists "secret"; repeat split; reflexivity).
  split; [exact Hstart|].
  split; [reflexivity|].
  split; [left; reflexivity|].
  apply (incomplete_form_is_rejected
           (Sample.form_with "Please select..." "" "" "2") "" [] Hstart);
    [reflexivity | left; reflexivity].
Defined.

Lemma quiet_chat_run env llm fe profile history :
  starts env llm ->
  chat_input fe "Type your request..." = None ->
  run_script env fe (established true profile history)
  = (Returned tt,
     {| session_state := established true profile history; memory := [];
        page := chat_view profile history; journal := [] |}).
Proof.
  intros Hstart Hquiet.
  rewrite (run_chat_spec fe profile history Hstart), Hquiet. reflexivity.
Qed.

(** The execution that follows a rerun request does not ask for another:
    one rerun settles an interaction. *)
Lemma rerun_settles env fe s :
  fst (run_script env (settled fe) s) <> Interrupted RerunException.
Proof.
  rewrite run_script_spec.
  destruct (boot env) as [msg|llm]; [discriminate|].
  destruct s as [fs pi ms].
  set (b := match fs with Some b => b | None => false end).
  set (p := match pi with Some p => p | None => "" end).
  set (h := match ms with Some h => h | None => [] end).
  change (with_defaults _) with (established b p h).
  cbn [form_submitted]. fold b.
  destruct b.
  - unfold established. rewrite chat_interface_spec. discriminate.
  - destruct (form_ui_spec (settled fe) false p h) as [widgets Hui].
    rewrite Hui. discriminate.
Qed.

(** C2.  A form submitted with a concrete species, a breed that is neither
    empty nor the placeholder and a non-empty age is saved: the execution
    sets [form_submitted] to true, sets [pet_info] to the seven fields, one
    per line, appends one message and no other, whose role is "assistant"
    and whose content is the offer of line 131, and asks for a rerun; the
    rerun draws the chat view and changes nothing. *)
Theorem complete_form_is_saved env env' llm llm' fe profile history :
  starts env llm ->
  starts env' llm' ->
  form_submit_button fe "Save & Continue" = true ->
  form_species (entered fe) <> "Please select..." ->
  form_breed (entered fe) <> "" ->
  form_breed (entered fe) <> "Please select..." ->
  form_age (entered fe) <> "" ->
  let saved :=
    "Name: " ++ text_input fe "What's their name?" ++ nl
    ++ "Species: " ++ selectbox fe "What species are they?" species_options
    ++ nl
    ++ "Breed: " ++ form_breed (entered fe) ++ nl
    ++ "Age: " ++ text_input fe "How old are they?" ++ nl
    ++ "Behavior/Concerns: " ++ text_area fe "Behavior/Health concerns?" ++ nl
    ++ "Diet: " ++ text_area fe "Current diet?" ++ nl
    ++ "Exercise: " ++ text_area fe "Current exercise routine?" in
  let offer :=
    {| role := "assistant";
       content := "Thanks! What recommendations do you want — diet, exercise, or wellness tips?" |} in
  (exists widgets,
     run_script env fe (established false profile history)
     = (Interrupted RerunException,
        {| session_state := established true saved (history ++ [offer]);
           memory := [];
           page := (header ++ [Form "pet_info_form" widgets])%list;
           journal := [Appended offer] |}))
  /\ interact env env' fe (established false profile history)
     = (Returned tt,
        {| session_state := established true saved (history ++ [offer]);
           memory := [];
           page := chat_view saved (history ++ [offer]);
           journal := [] |}).
Proof.
  intros Hstart Hstart' Hsubmit Hspecies Hbreed Hplaceholder Hage saved offer.
  assert (Hcomplete : incomplete (entered fe) = false)
    by (apply incomplete_false; auto).
  destruct (run_form_spec fe profile history Hstart) as [widgets Hrun].
  cbv zeta in Hrun. rewrite Hsubmit, Hcomplete in Hrun.
  change (profile_text (entered fe)) with saved in Hrun.
  split.
  - exists widgets. exact Hrun.
  - unfold interact. rewrite Hrun. cbn [session_state].
    apply (quiet_chat_run (settled fe) saved (history ++ [offer]) Hstart').
    reflexivity.
Qed.

Lemma complete_form_is_saved_witness :
  starts (Sample.env_with Sample.advice) Sample.advice
  /\ form_submit_button (Sample.form_with "Cat" "Ragdoll" "" "1")
       "Save & Continue" = true
  /\ form_species (entered (Sample.form_with "Cat" "Ragdoll" "" "1"))
     <> "Please select..."
  /\ form_breed (entered (Sample.form_with "Cat" "Ragdoll" "" "1")) <> ""
  /\ form_breed (entered (Sample.form_with "Cat" "Ragdoll" "" "1"))
     <> "Please select..."
  /\ form_age (entered (Sample.form_with "Cat" "Ragdoll" "" "1")) <> ""
  /\ session_state
       (snd (interact (Sample.env_with Sample.advice)
               (Sample.env_with Sample.advice)
               (Sample.form_with "Cat" "Ragdoll" "" "1")
               (established false "" [])))
     = established true
         ("Name: Rex" ++ nl ++ "Species: Cat" ++ nl ++ "Breed: Ragdoll" ++ nl
          ++ "Age: 1" ++ nl ++ "Behavior/Concerns: " ++ nl ++ "Diet: " ++ nl
          ++ "Exercise: ")
         [{| role := "assistant";
             content := "Thanks! What recommendations do you want — diet, exercise, or wellness tips?" |}].
Proof.
  assert (Hstart : starts (Sample.env_with Sample.advice) Sample.advice)
    by (exists "secret"; repeat split; reflexivity).
  split; [exact Hstart|].
  split; [reflexivity|].
  split; [discriminate|].
  split; [discriminate|].
  split; [discriminate|].
  split; [discriminate|].
  destruct (complete_form_is_saved
              (Sample.form_with "Cat" "Ragdoll" "" "1") "" []
              Hstart Hstart eq_refl)
    as [_ Hinteract]; try discriminate.
  rewrite Hinteract. reflexivity.
Defined.

Lemma beagle_breed fe :
  beagle_scenario fe ->
  entered fe
  = {| form_name := text_input fe "What's their name?";
       form_species := "Dog"; form_breed := "Beagle"; form_age := "3";
       form_behavior := text_area fe "Behavior/Health concerns?";
       form_diet := text_area fe "Current diet?";
       form_exercise := text_area fe "Current exercise routine?";
       form_submit := true |}.
Proof.
  intros (Hspecies & Hselected & Hage & Hsubmit).
  unfold entered, picked_breed.
  rewrite Hspecies, Hselected, Hage, Hsubmit. reflexivity.
Qed.

Lemma catahoula_breed fe :
  catahoula_scenario fe ->
  entered fe
  = {| form_name := text_input fe "What's their name?";
       form_species := "Dog"; form_breed := "Catahoula Leopard Dog";
       form_age := "5";
       form_behavior := text_area fe "Behavior/Health concerns?";
       form_diet := text_area fe "Current diet?";
       form_exercise := text_area fe "Current exercise routine?";
       form_submit := true |}.
Proof.
  intros (Hspecies & Hselected & Htyped & Hage & Hsubmit).
  unfold entered, picked_breed.
  rewrite Hspecies, Hselected, Htyped, Hage, Hsubmit. reflexivity.
Qed.

(** C6.  Scenario A: species "Dog", picked breed "Beagle", age "3" is
    accepted and the saved profile carries the breed "Beagle".  Scenario B:
    species "Dog", picked breed "Other", typed breed "Catahoula Leopard
    Dog", age "5" is accepted and the saved profile carries the typed
    breed. *)
Theorem scenarios_a_and_b_are_accepted env llm fe_a fe_b profile history :
  starts env llm ->
  beagle_scenario fe_a ->
  catahoula_scenario fe_b ->
  (form_breed (entered fe_a) = "Beagle"
   /\ exists widgets,
        run_script env fe_a (established false profile history)
        = (Interrupted RerunException,
           {| session_state :=
                established true
                  ("Name: " ++ text_input fe_a "What's their name?" ++ nl
                   ++ "Species: Dog" ++ nl ++ "Breed: Beagle" ++ nl
                   ++ "Age: 3" ++ nl
                   ++ "Behavior/Concerns: "
                   ++ text_area fe_a "Behavior/Health concerns?" ++ nl
                   ++ "Diet: " ++ text_area fe_a "Current diet?" ++ nl
                   ++ "Exercise: " ++ text_area fe_a "Current exercise routine?")
                  (history ++ [greeting]);
              memory := [];
              page := (header ++ [Form "pet_info_form" widgets])%list;
              journal := [Appended greeting] |}))
  /\ (form_breed (entered fe_b) = "Catahoula Leopard Dog"
      /\ exists widgets,
           run_script env fe_b (established false profile history)
           = (Interrupted RerunException,
              {| session_state :=
                   established true
                     ("Name: " ++ text_input fe_b "What's their name?" ++ nl
                      ++ "Species: Dog" ++ nl
                      ++ "Breed: Catahoula Leopard Dog" ++ nl
                      ++ "Age: 5" ++ nl
                      ++ "Behavior/Concerns: "
                      ++ text_area fe_b "Behavior/Health concerns?" ++ nl
                      ++ "Diet: " ++ text_area fe_b "Current diet?" ++ nl
                      ++ "Exercise: "
                      ++ text_area fe_b "Current exercise routine?")
                     (history ++ [greeting]);
                 memory := [];
                 page := (header ++ [Form "pet_info_form" widgets])%list;
                 journal := [Appended greeting] |})).
Proof.
  intros Hstart Ha Hb.
  pose proof (beagle_breed Ha) as Hentered_a.
  pose proof (catahoula_breed Hb) as Hentered_b.
  split.
  - split; [rewrite Hentered_a; reflexivity|].
    destruct (run_form_spec fe_a profile history Hstart) as [widgets Hrun].
    exists widgets. rewrite Hrun. cbv zeta.
    destruct Ha as (_ & _ & _ & ->).
    rewrite Hentered_a. reflexivity.
  - split; [rewrite Hentered_b; reflexivity|].
    destruct (run_form_spec fe_b profile history Hstart) as [widgets Hrun].
    exists widgets. rewrite Hrun. cbv zeta.
    destruct Hb as (_ & _ & _ & _ & ->).
    rewrite Hentered_b. reflexivity.
Qed.

Lemma scenarios_a_and_b_are_accepted_witness :
  starts (Sample.env_with Sample.advice) Sample.advice
  /\ beagle_scenario (Sample.form_with "Dog" "Beagle" "" "3")
  /\ catahoula_scenario
       (Sample.form_with "Dog" "Other" "Catahoula Leopard Dog" "5")
  /\ form_breed (entered (Sample.form_with "Dog" "Beagle" "" "3")) = "Beagle"
  /\ form_breed
       (entered (Sample.form_with "Dog" "Other" "Catahoula Leopard Dog" "5"))
     = "Catahoula Leopard Dog".
Proof.
  assert (Hstart : starts (Sample.env_with Sample.advice) Sample.advice)
    by (exists "secret"; repeat split; reflexivity).
  assert (Ha : beagle_scenario (Sample.form_with "Dog" "Beagle" "" "3"))
    by (repeat split; reflexivity).
  assert (Hb : catahoula_scenario
                 (Sample.form_with "Dog" "Other" "Catahoula Leopard Dog" "5"))
    by (repeat split; reflexivity).
  split; [exact Hstart|].
  split; [exact Ha|].
  split; [exact Hb|].
  destruct (scenarios_a_and_b_are_accepted "" [] Hstart Ha Hb)
    as [[Hbreed_a _] [Hbreed_b _]].
  split; [exact Hbreed_a | exact Hbreed_b].
Defined.

Lemma other_left_empty_breed fe :
  other_left_empty fe -> form_breed (entered fe) = "".
Proof.
  intros [[[Hspecies Hselected] | [Hspecies Hselected]] Htyped];
    unfold entered, picked_breed; cbn [form_breed];
    rewrite Hspecies, Hselected, Htyped; reflexivity.
Qed.

(** C10.  For a dog or a cat, when the breed picker stands on "Other" and
    the typed breed is left empty, the breed the form computes is the empty
    string and the submission is rejected with the warning. *)
Theorem empty_other_breed_is_rejected env llm fe profile history :
  starts env llm ->
  other_left_empty fe ->
  form_submit_button fe "Save & Continue" = true ->
  form_breed (entered fe) = ""
  /\ exists widgets,
       run_script env fe (established false profile history)
       = (Returned tt,
          {| session_state := established false profile history;
             memory := [];
             page :=
               (header
                ++ [Form "pet_info_form" widgets;
                    Warning "Please provide species, breed, and age."])%list;
             journal := [] |}).
Proof.
  intros Hstart Hother Hsubmit.
  pose proof (other_left_empty_breed Hother) as Hbreed.
  split; [exact Hbreed|].
  destruct (run_form_spec fe profile history Hstart) as [widgets Hrun].
  exists widgets. rewrite Hrun. cbv zeta.
  assert (Hmissing : incomplete (entered fe) = true)
    by (apply incomplete_true; auto).
  rewrite Hsubmit, Hmissing, <- app_assoc. reflexivity.
Qed.

Lemma empty_other_breed_is_rejected_witness :
  starts (Sample.env_with Sample.advice) Sample.advice
  /\ other_left_empty (Sample.form_with "Cat" "Other" "" "4")
  /\ form_submit_button (Sample.form_with "Cat" "Other" "" "4")
       "Save & Continue" = true
  /\ form_breed (entered (Sample.form_with "Cat" "Other" "" "4")) = ""
  /\ exists widgets,
       run_script (Sample.env_with Sample.advice)
         (Sample.form_with "Cat" "Other" "" "4") (established false "" [])
       = (Returned tt,
          {| session_state := established false "" [];
             memory := [];
             page :=
               (header
                ++ [Form "pet_info_form" widgets;
                    Warning "Please provide species, breed, and age."])%list;
             journal := [] |}).
Proof.
  assert (Hstart : starts (Sample.env_with Sample.advice) Sample.advice)
    by (exists "secret"; repeat split; reflexivity).
  assert (Hother : other_left_empty (Sample.form_with "Cat" "Other" "" "4"))
    by (split; [right; split; reflexivity | reflexivity]).
  split; [exact Hstart|].
  split; [exact Hother|].
  split; [reflexivity|].
  apply (empty_other_breed_is_rejected "" [] Hstart Hother). reflexivity.
Defined.

Lemma startup_failure_boot env msg :
  startup_failure env msg -> boot env = inl msg.
Proof.
  unfold boot.
  intros [[Hkey | Hkey] | api_key e Hkey Htruthy Hraise].
  - rewrite Hkey. reflexivity.
  - rewrite Hkey. reflexivity.
  - rewrite Hkey, Htruthy, Hraise. reflexivity.
Qed.

(** C8.  When the credential is absent from the environment, or the
    construction of the model client raises, the execution shows the error
    message under the title and stops there: no form and no chat element
    is drawn, and the session state is left as it was. *)
Theorem failed_startup_halts env fe s msg :
  startup_failure env msg ->
  run_script env fe s
  = (Interrupted StopException,
     {| session_state := s; memory := [];
        page := (header ++ [Error msg])%list; journal := [] |}).
Proof.
  intros Hfail.
  rewrite run_script_spec, (startup_failure_boot Hfail). reflexivity.
Qed.

Lemma failed_startup_halts_witness :
  startup_failure Sample.env_without_key
    "The GOOGLE_API_KEY environment variable is not set. Please check your .env file."
  /\ startup_failure Sample.env_bad_key
       "Failed to initialize the LLM: API key not valid"
  /\ run_script Sample.env_without_key (Sample.chat_with (Some "hello"))
       fresh_session
     = (Interrupted StopException,
        {| session_state := fresh_session; memory := [];
           page :=
             (header
              ++ [Error "The GOOGLE_API_KEY environment variable is not set. Please check your .env file."])%list;
           journal := [] |})
  /\ run_script Sample.env_bad_key (Sample.chat_with (Some "hello"))
       (established true Sample.ragdoll [greeting])
     = (Interrupted StopException,
        {| session_state := established true Sample.ragdoll [greeting];
           memory := [];
           page :=
             (header
              ++ [Error "Failed to initialize the LLM: API key not valid"])%list;
           journal := [] |}).
Proof.
  assert (Habsent : startup_failure Sample.env_without_key
            "The GOOGLE_API_KEY environment variable is not set. Please check your .env file.")
    by (apply credential_absent; left; reflexivity).
  assert (Hraised : startup_failure Sample.env_bad_key
            "Failed to initialize the LLM: API key not valid")
    by (apply (@construction_raised Sample.env_bad_key "wrong"
                 "API key not valid"); reflexivity).
  split; [exact Habsent|].
  split; [exact Hraised|].
  split.
  - apply (failed_startup_halts (Sample.chat_with (Some "hello"))
             fresh_session Habsent).
  - apply (failed_startup_halts (Sample.chat_with (Some "hello"))
             (established true Sample.ragdoll [greeting]) Hraised).
Defined.

(** C9.  Drawing the chat view again with the session state unchanged
    gives the same page: an execution with no new chat input leaves the
    session state as it was and draws the chat view of that state, the
    profile card and one bubble per stored message in stored order, so a
    second such execution draws an equal page. *)
Theorem chat_view_redraw_is_idempotent env env' llm llm' fe fe' profile history :
  starts env llm ->
  starts env' llm' ->
  chat_input fe "Type your request..." = None ->
  chat_input fe' "Type your request..." = None ->
  let first := run_script env fe (established true profile history) in
  let second := run_script env' fe' (session_state (snd first)) in
  first
  = (Returned tt,
     {| session_state := established true profile history; memory := [];
        page := chat_view profile history; journal := [] |})
  /\ second = first.
Proof.
  intros Hstart Hstart' Hquiet Hquiet' first second.
  assert (Hfirst : first
            = (Returned tt,
               {| session_state := established true profile history;
                  memory := []; page := chat_view profile history;
                  journal := [] |}))
    by (apply (quiet_chat_run fe profile history Hstart Hquiet)).
  split; [exact Hfirst|].
  unfold second. rewrite Hfirst. cbn [snd session_state].
  apply (quiet_chat_run fe' profile history Hstart' Hquiet').
Qed.

Lemma chat_view_redraw_is_idempotent_witness :
  starts (Sample.env_with Sample.advice) Sample.advice
  /\ chat_input (Sample.chat_with None) "Type your request..." = None
  /\ page (snd (run_script (Sample.env_with Sample.advice)
                  (Sample.chat_with None)
                  (established true Sample.ragdoll
                     [greeting; user_says "hi"; assistant_says "hello"])))
     = chat_view Sample.ragdoll
         [greeting; user_says "hi"; assistant_says "hello"].
Proof.
  assert (Hstart : starts (Sample.env_with Sample.advice) Sample.advice)
    by (exists "secret"; repeat split; reflexivity).
  split; [exact Hstart|].
  split; [reflexivity|].
  destruct (chat_view_redraw_is_idempotent
              (Sample.chat_with None) (Sample.chat_with None) Sample.ragdoll
              [greeting; user_says "hi"; assistant_says "hello"]
              Hstart Hstart eq_refl eq_refl) as [Hfirst _].
  rewrite Hfirst. reflexivity.
Defined.

(** C5.  When the model invocation raises during a chat turn, the
    exception leaves the execution uncaught, and the session state holds
    the message of the user, appended before the call, and no reply of the
    assistant after it. *)
Theorem failed_invocation_keeps_user_message env llm fe profile history
  request e :
  starts env llm ->
  chat_input fe "Type your request..." = Some request ->
  request <> "" ->
  llm (prompt_text profile "" request) = inl e ->
  run_script env fe (established true profile history)
  = (Interrupted (Exception e),
     {| session_state :=
          established true profile (history ++ [user_says request]);
        memory := [];
        page :=
          (chat_view profile history
           ++ [ChatMessage "user" [WriteText request];
               Spinner "Thinking..." []])%list;
        journal :=
          [Appended (user_says request);
           Invoked (prompt_text profile "" request)] |}).
Proof.
  intros Hstart Hinput Hrequest Hraise.
  rewrite (run_chat_spec fe profile history Hstart), Hinput.
  cbv zeta. apply truthy_true in Hrequest. rewrite Hrequest.
  unfold established at 1. rewrite chat_turn_spec. cbv zeta.
  change (buffer_as_str buffer_memory []) with "".
  rewrite Hraise, <- app_assoc. reflexivity.
Qed.

Lemma failed_invocation_keeps_user_message_witness :
  starts (Sample.env_with Sample.out_of_quota) Sample.out_of_quota
  /\ chat_input (Sample.chat_with (Some "suggest a diet"))
       "Type your request..." = Some "suggest a diet"
  /\ "suggest a diet" <> ""
  /\ Sample.out_of_quota (prompt_text Sample.ragdoll "" "suggest a diet")
     = inl "429 quota exceeded"
  /\ run_script (Sample.env_with Sample.out_of_quota)
       (Sample.chat_with (Some "suggest a diet"))
       (established true Sample.ragdoll [greeting])
     = (Interrupted (Exception "429 quota exceeded"),
        {| session_state :=
             established true Sample.ragdoll
               ([greeting] ++ [user_says "suggest a diet"]);
           memory := [];
           page :=
             (chat_view Sample.ragdoll [greeting]
              ++ [ChatMessage "user" [WriteText "suggest a diet"];
                  Spinner "Thinking..." []])%list;
           journal :=
             [Appended (user_says "suggest a diet");
              Invoked (prompt_text Sample.ragdoll "" "suggest a diet")] |}).
Proof.
  assert (Hstart : starts (Sample.env_with Sample.out_of_quota)
                     Sample.out_of_quota)
    by (exists "secret"; repeat split; reflexivity).
  split; [exact Hstart|].
  split; [reflexivity|].
  split; [discriminate|].
  split; [reflexivity|].
  apply (failed_invocation_keeps_user_message
           (Sample.chat_with (Some "suggest a diet")) Sample.ragdoll
           [greeting] Hstart eq_refl);
    [discriminate | reflexivity].
Defined.

Lemma answered_turn_run profile history t :
  answered profile t ->
  run_script (turn_env t) (turn_fe t) (established true profile history)
  = (Returned tt,
     {| session_state := established true profile (history ++ exchange t);
        memory := [HumanMessage (turn_request t); AIMessage (turn_reply t)];
        page :=
          (chat_view profile history
           ++ [ChatMessage "user" [WriteText (turn_request t)];
               Spinner "Thinking..." [];
               ChatMessage "assistant" [WriteText (turn_reply t)]])%list;
        journal := turn_effects profile t |}).
Proof.
  intros (llm & Hstart & Hinput & Hrequest & Hreply).
  rewrite (run_chat_spec (turn_fe t) profile history Hstart), Hinput.
  cbv zeta. apply truthy_true in Hrequest. rewrite Hrequest.
  unfold established at 1. rewrite chat_turn_spec. cbv zeta.
  change (buffer_as_str buffer_memory []) with "".
  rewrite Hreply, <- !app_assoc. reflexivity.
Qed.

Lemma answered_turns_session profile turns :
  Forall (answered profile) turns ->
  forall history,
    run_session (map turn_run turns) (established true profile history)
    = established true profile (history ++ flat_map exchange turns)
    /\ session_journal (map turn_run turns) (established true profile history)
       = flat_map (turn_effects profile) turns.
Proof.
  unfold session_journal.
  induction 1 as [|t turns Ht _ IH]; intros history.
  - cbn. rewrite app_nil_r. split; reflexivity.
  - cbn [map turn_run run_session executions flat_map].
    rewrite (answered_turn_run history Ht). cbn [snd session_state journal].
    destruct (IH (history ++ exchange t)%list) as [Hstate Hjournal].
    rewrite Hstate, Hjournal, <- app_assoc. split; reflexivity.
Qed.

Lemma exchange_positions turns :
  forall n t,
    nth_error turns n = Some t ->
    nth_error (flat_map exchange turns) (2 * n)
    = Some (user_says (turn_request t))
    /\ nth_error (flat_map exchange turns) (2 * n + 1)
       = Some (assistant_says (turn_reply t)).
Proof.
  induction turns as [|t0 turns IH]; intros [|n] t Hnth;
    try discriminate.
  - injection Hnth as ->. split; reflexivity.
  - cbn [nth_error] in Hnth. destruct (IH n t Hnth) as [Huser Hassistant].
    replace (2 * S n) with (S (S (2 * n))) by lia.
    split; [exact Huser | exact Hassistant].
Qed.

(** C3.  For every sequence of chat turns the model answers, the messages
    are appended in call order: each turn appends the message of the user,
    then invokes the model, then appends the reply, so the stored list is
    the earlier messages followed by request and reply of each turn in
    turn; the N-th request stands right before the N-th reply and right
    after the reply before it, and the chat view shows the list in that
    order. *)
Theorem chat_turns_keep_call_order profile history turns :
  Forall (answered profile) turns ->
  let start := established true profile history in
  let stored := (history ++ flat_map exchange turns)%list in
  run_session (map turn_run turns) start = established true profile stored
  /\ session_journal (map turn_run turns) start
     = flat_map (turn_effects profile) turns
  /\ (forall n t,
        nth_error turns n = Some t ->
        nth_error stored (length history + 2 * n)
        = Some (user_says (turn_request t))
        /\ nth_error stored (length history + 2 * n + 1)
           = Some (assistant_says (turn_reply t)))
  /\ (forall env llm fe,
        starts env llm ->
        chat_input fe "Type your request..." = None ->
        page (snd (run_script env fe (established true profile stored)))
        = chat_view profile stored).
Proof.
  intros Hturns start stored.
  destruct (answered_turns_session Hturns history) as [Hstate Hjournal].
  split; [exact Hstate|].
  split; [exact Hjournal|].
  split.
  - intros n t Hnth. unfold stored.
    destruct (exchange_positions turns n Hnth) as [Huser Hassistant].
    split.
    + rewrite nth_error_app2 by lia.
      replace (length history + 2 * n - length history) with (2 * n) by lia.
      exact Huser.
    + rewrite nth_error_app2 by lia.
      replace (length history + 2 * n + 1 - length history) with (2 * n + 1)
        by lia.
      exact Hassistant.
  - intros env llm fe Hstart Hquiet.
    rewrite (quiet_chat_run fe profile stored Hstart Hquiet). reflexivity.
Qed.

Lemma chat_turns_keep_call_order_witness :
  Forall (answered Sample.ragdoll)
    [Sample.asks "suggest a diet"; Sample.asks "and how much exercise?"]
  /\ run_session
       (map turn_run
          [Sample.asks "suggest a diet"; Sample.asks "and how much exercise?"])
       (established true Sample.ragdoll [greeting])
     = established true Sample.ragdoll
         [greeting;
          user_says "suggest a diet"; assistant_says "Two meals a day.";
          user_says "and how much exercise?";
          assistant_says "Two meals a day."].
Proof.
  assert (Hanswered : forall request,
            request <> "" -> answered Sample.ragdoll (Sample.asks request)).
  { intros request Hrequest. exists Sample.advice.
    split; [exists "secret"; repeat split; reflexivity|].
    split; [reflexivity|]. split; [exact Hrequest | reflexivity]. }
  assert (Hturns : Forall (answered Sample.ragdoll)
            [Sample.asks "suggest a diet";
             Sample.asks "and how much exercise?"])
    by (repeat constructor; apply Hanswered; discriminate).
  split; [exact Hturns|].
  destruct (chat_turns_keep_call_order [greeting] Hturns) as [Hstate _].
  rewrite Hstate. reflexivity.
Defined.

(** C3 as stated for every sequence of chat inputs does not hold when a
    model call raises.  Two requests are handed over in a saved session;
    the first call raises, the second returns.  The stored list is then the
    greeting, the first request, the second request and the one reply: the
    second request stands before the first reply, not after it, and the
    list is not request and reply of each turn in turn. *)
Lemma raising_call_breaks_stated_order :
  Forall2 chat_submitted
    [(Sample.env_with Sample.out_of_quota,
      Sample.chat_with (Some "first question"));
     (Sample.env_with Sample.advice,
      Sample.chat_with (Some "second question"))]
    ["first question"; "second question"]
  /\ run_session
       [(Sample.env_with Sample.out_of_quota,
         Sample.chat_with (Some "first question"));
        (Sample.env_with Sample.advice,
         Sample.chat_with (Some "second question"))]
       (established true Sample.ragdoll [greeting])
     = established true Sample.ragdoll
         [greeting; user_says "first question"; user_says "second question";
          assistant_says "Two meals a day."]
  /\ ~ stated_order [greeting] ["first question"; "second question"]
        [greeting; user_says "first question"; user_says "second question";
         assistant_says "Two meals a day."].
Proof.
  split.
  - constructor; [|constructor; [|constructor]].
    + split; [exists Sample.out_of_quota, "secret"; repeat split|].
      split; [reflexivity | discriminate].
    + split; [exists Sample.advice, "secret"; repeat split|].
      split; [reflexivity | discriminate].
  - split; [reflexivity|].
    intros (replies & Hlength & Hstored).
    destruct replies as [|first [|second [|third replies]]];
      try discriminate Hlength.
    cbn in Hstored. discriminate Hstored.
Qed.

Lemma no_form_among_bubbles history :
  existsb is_form (map bubble history) = false.
Proof. induction history as [|m history IH]; [reflexivity | exact IH]. Qed.

Lemma no_form_in_chat_view profile history :
  existsb is_form (chat_view profile history) = false.
Proof.
  unfold chat_view. rewrite !existsb_app, no_form_among_bubbles. reflexivity.
Qed.

(** One execution in a submitted session, whatever the environment and the
    widgets hold. *)
Lemma submitted_step env fe profile history :
  exists later,
    session_state (snd (run_script env fe (established true profile history)))
    = established true profile (history ++ later)
    /\ existsb is_form
         (page (snd (run_script env fe (established true profile history))))
       = false.
Proof.
  rewrite run_script_spec.
  destruct (boot env) as [msg|llm].
  - exists []. rewrite app_nil_r. split; reflexivity.
  - cbn [form_submitted established]. rewrite with_defaults_established.
    unfold established at 1 3. rewrite chat_interface_spec. cbv zeta.
    rewrite chat_view_assoc.
    destruct (chat_input fe "Type your request...") as [request|].
    + destruct (truthy request).
      * rewrite chat_turn_spec. cbv zeta.
        destruct (llm _) as [e|text].
        -- exists [user_says request]. cbn [snd session_state page].
           split; [reflexivity|].
           rewrite !existsb_app, no_form_in_chat_view. reflexivity.
        -- exists [user_says request; assistant_says text].
           cbn [snd session_state page].
           split; [rewrite <- app_assoc; reflexivity|].
           rewrite !existsb_app, no_form_in_chat_view. reflexivity.
      * exists []. rewrite app_nil_r. cbn [snd session_state page].
        split; [reflexivity | apply no_form_in_chat_view].
    + exists []. rewrite app_nil_r. cbn [snd session_state page].
      split; [reflexivity | apply no_form_in_chat_view].
Qed.

Lemma submitted_session profile runs :
  forall history,
  exists later,
    run_session runs (established true profile history)
    = established true profile (history ++ later)
    /\ Forall (fun w => existsb is_form (page w) = false)
         (executions runs (established true profile history)).
Proof.
  induction runs as [|[env fe] runs IH]; intros history.
  - exists []. rewrite app_nil_r. split; [reflexivity | constructor].
  - cbn [run_session executions].
    destruct (submitted_step env fe profile history)
      as (step & Hstate & Hpage).
    rewrite Hstate.
    destruct (IH (history ++ step)%list) as (later & Hfinal & Hpages).
    exists (step ++ later)%list. rewrite app_assoc.
    split; [exact Hfinal|].
    constructor; [exact Hpage | exact Hpages].
Qed.

(** One execution in a session that has not submitted the form yet. *)
Lemma unsubmitted_step env fe profile history :
  session_state (snd (run_script env fe (established false profile history)))
  = established false profile history
  \/ session_state (snd (run_script env fe (established false profile history)))
     = established true (profile_text (entered fe)) (history ++ [greeting]).
Proof.
  rewrite run_script_spec.
  destruct (boot env) as [msg|llm]; [left; reflexivity|].
  cbn [form_submitted established]. rewrite with_defaults_established.
  destruct (form_ui_spec fe false profile history) as [widgets Hui].
  rewrite Hui. cbv zeta.
  destruct (form_submit_button fe "Save & Continue"); [|left; reflexivity].
  destruct (incomplete (entered fe)); [left | right]; reflexivity.
Qed.

Lemma fresh_step env fe :
  session_state (snd (run_script env fe fresh_session)) = fresh_session
  \/ session_state (snd (run_script env fe fresh_session))
     = established false "" []
  \/ session_state (snd (run_script env fe fresh_session))
     = established true (profile_text (entered fe)) [greeting].
Proof.
  rewrite run_script_spec.
  destruct (boot env) as [msg|llm]; [left; reflexivity|].
  right. cbn [form_submitted fresh_session].
  change (with_defaults fresh_session) with (established false "" []).
  destruct (form_ui_spec fe false "" []) as [widgets Hui].
  rewrite Hui. cbv zeta.
  destruct (form_submit_button fe "Save & Continue"); [|left; reflexivity].
  destruct (incomplete (entered fe)); [left | right]; reflexivity.
Qed.

Lemma run_session_app runs later s :
  run_session (runs ++ later) s = run_session later (run_session runs s).
Proof.
  revert s. induction runs as [|[env fe] runs IH]; intros s;
    [reflexivity | apply IH].
Qed.

(** The states a session passes through: no key assigned yet, or all three
    assigned. *)
Lemma session_states runs :
  forall s,
    s = fresh_session \/ (exists b p h, s = established b p h) ->
    run_session runs s = fresh_session
    \/ exists b p h, run_session runs s = established b p h.
Proof.
  induction runs as [|[env fe] runs IH]; intros s Hs; [exact Hs|].
  cbn [run_session]. apply IH.
  destruct Hs as [-> | (b & p & h & ->)].
  - destruct (fresh_step env fe) as [-> | [-> | ->]]; eauto.
  - destruct b.
    + destruct (submitted_step env fe p h) as (later & -> & _); eauto.
    + destruct (unsubmitted_step env fe p h) as [-> | ->]; eauto.
Qed.

(** C7.  Once [form_submitted] is true in a session, whatever executions
    follow, it stays true, [pet_info] keeps its text, the message list only
    grows at its end, and no execution draws the intake form. *)
Theorem submitted_session_is_frozen before after :
  form_submitted (run_session before fresh_session) = Some true ->
  exists profile history later,
    run_session before fresh_session = established true profile history
    /\ run_session (before ++ after) fresh_session
       = established true profile (history ++ later)
    /\ Forall (fun w => existsb is_form (page w) = false)
         (executions after (run_session before fresh_session)).
Proof.
  intros Hsubmitted.
  destruct (session_states before (or_introl eq_refl))
    as [Hfresh | (b & profile & history & Hstate)].
  - rewrite Hfresh in Hsubmitted. discriminate.
  - rewrite Hstate in Hsubmitted. injection Hsubmitted as ->.
    destruct (submitted_session profile after history)
      as (later & Hfinal & Hpages).
    exists profile, history, later.
    rewrite run_session_app, Hstate. auto.
Qed.

Lemma submitted_session_is_frozen_witness :
  form_submitted
    (run_session
       [(Sample.env_with Sample.advice, Sample.form_with "Cat" "Ragdoll" "" "1")]
       fresh_session) = Some true
  /\ exists profile history later,
       run_session
         ([(Sample.env_with Sample.advice,
            Sample.form_with "Cat" "Ragdoll" "" "1")]
          ++ [(Sample.env_with Sample.advice,
               Sample.form_with "Dog" "Beagle" "" "3");
              (Sample.env_without_key, Sample.chat_with (Some "hello"));
              (Sample.env_with Sample.out_of_quota,
               Sample.chat_with (Some "suggest a diet"))])
         fresh_session
       = established true profile (history ++ later).
Proof.
  split; [reflexivity|].
  destruct (submitted_session_is_frozen
              [(Sample.env_with Sample.advice,
                Sample.form_with "Cat" "Ragdoll" "" "1")]
              [(Sample.env_with Sample.advice,
                Sample.form_with "Dog" "Beagle" "" "3");
               (Sample.env_without_key, Sample.chat_with (Some "hello"));
               (Sample.env_with Sample.out_of_quota,
                Sample.chat_with (Some "suggest a diet"))]
              eq_refl)
    as (profile & history & later & _ & Hfinal & _).
  exists profile, history, later. exact Hfinal.
Defined.

(** Every prompt an execution sends has an empty transcript slot: the
    memory object the chain reads was made by this very execution. *)
Lemma every_prompt_has_empty_transcript env fe s sent :
  In (Invoked sent) (journal (snd (run_script env fe s))) ->
  exists profile request, sent = prompt_text profile "" request.
Proof.
  rewrite run_script_spec.
  destruct (boot env) as [msg|llm]; [intros []|].
  destruct s as [fs pi ms].
  set (b := match fs with Some b => b | None => false end).
  set (p := match pi with Some p => p | None => "" end).
  set (h := match ms with Some h => h | None => [] end).
  change (with_defaults _) with (established b p h).
  cbn [form_submitted]. fold b.
  destruct b.
  - unfold established. rewrite chat_interface_spec. cbv zeta.
    destruct (chat_input fe "Type your request...") as [request|];
      [|intros []].
    destruct (truthy request); [|intros []].
    rewrite chat_turn_spec. cbv zeta.
    change (buffer_as_str buffer_memory []) with "".
    destruct (llm _); cbn [snd journal app In]; intros Hin;
      exists p, request;
      repeat (destruct Hin as [Hin | Hin]; try discriminate Hin;
              try (injection Hin as <-; reflexivity));
      destruct Hin.
  - destruct (form_ui_spec fe false p h) as [widgets Hui].
    rewrite Hui. cbv zeta.
    destruct (form_submit_button fe "Save & Continue"); [|intros []].
    destruct (incomplete (entered fe)); cbn [snd journal In];
      [intros [] | intros [Hin | []]; discriminate Hin].
Qed.

(** C4, where the code departs from the specification.  A session that has saved
    a profile takes two chat turns.  The first execution leaves the pair of
    the first turn in its memory object; the second execution sends a
    prompt whose transcript slot is empty, which is not the prompt with the
    transcript of the first turn. *)
Theorem second_prompt_lacks_first_turn :
  let start := established true Sample.ragdoll [greeting] in
  let first :=
    snd (run_script (Sample.env_with Sample.advice)
           (Sample.chat_with (Some "suggest a diet")) start) in
  let second :=
    snd (run_script (Sample.env_with Sample.advice)
           (Sample.chat_with (Some "and how much exercise?"))
           (session_state first)) in
  let transcript := "Human: suggest a diet" ++ nl ++ "AI: Two meals a day." in
  buffer_as_str buffer_memory (memory first) = transcript
  /\ journal second
     = [Appended (user_says "and how much exercise?");
        Invoked (prompt_text Sample.ragdoll "" "and how much exercise?");
        Appended (assistant_says "Two meals a day.")]
  /\ prompt_text Sample.ragdoll "" "and how much exercise?"
     <> prompt_text Sample.ragdoll transcript "and how much exercise?".
Proof.
  cbv zeta.
  split; [reflexivity|].
  split; [reflexivity|].
  apply String.eqb_neq. vm_compute. reflexivity.
Qed.

(** * Further properties of the script *)

(** X1.  The initialisation of the session state (lines 66-71) returns,
    leaves all three keys assigned, keeps the value of every key that was
    assigned already, gives an absent key its default ([False], the empty
    string, the empty list), touches nothing else of the world, and does
    nothing when it runs a second time. *)
Theorem init_session_state_assigns_absent_keys_only w :
  exists b p h,
    init_session_state w
    = (Returned tt, with_session (fun _ => established b p h) w)
    /\ (form_submitted (session_state w) = Some b
        \/ (form_submitted (session_state w) = None /\ b = false))
    /\ (pet_info (session_state w) = Some p
        \/ (pet_info (session_state w) = None /\ p = ""))
    /\ (messages (session_state w) = Some h
        \/ (messages (session_state w) = None /\ h = []))
    /\ init_session_state (with_session (fun _ => established b p h) w)
       = (Returned tt, with_session (fun _ => established b p h) w).
Proof.
  destruct w as [[fs pi ms] mem pg jr].
  exists (match fs with Some b => b | None => false end),
         (match pi with Some p => p | None => "" end),
         (match ms with Some h => h | None => [] end).
  split; [rewrite init_session_state_spec; reflexivity|].
  cbn [session_state form_submitted pet_info messages].
  split; [destruct fs; auto|].
  split; [destruct pi; auto|].
  split; [destruct ms; auto|].
  rewrite init_session_state_spec. reflexivity.
Qed.

(** X2.  The first execution of a session, with no key assigned yet, a
    working start and the button not pressed: the keys get their defaults,
    the page is the title, the introduction and the form, nothing is
    appended and the model is not called. *)
Theorem first_execution_offers_the_form env llm fe :
  starts env llm ->
  form_submit_button fe "Save & Continue" = false ->
  exists widgets,
    run_script env fe fresh_session
    = (Returned tt,
       {| session_state := established false "" []; memory := [];
          page := (header ++ [Form "pet_info_form" widgets])%list;
          journal := [] |}).
Proof.
  intros Hstart Hidle. apply starts_boot in Hstart.
  destruct (form_ui_spec fe false "" []) as [widgets Hui].
  exists widgets.
  rewrite run_script_spec, Hstart. cbn [form_submitted fresh_session].
  change (with_defaults fresh_session) with (established false "" []).
  rewrite Hui, Hidle. reflexivity.
Qed.

Lemma first_execution_offers_the_form_witness :
  starts (Sample.env_with Sample.advice) Sample.advice
  /\ form_submit_button (Sample.chat_with None) "Save & Continue" = false
  /\ exists widgets,
       run_script (Sample.env_with Sample.advice) (Sample.chat_with None)
         fresh_session
       = (Returned tt,
          {| session_state := established false "" []; memory := [];
             page := (header ++ [Form "pet_info_form" widgets])%list;
             journal := [] |}).
Proof.
  assert (Hstart : starts (Sample.env_with Sample.advice) Sample.advice)
    by (exists "secret"; repeat split; reflexivity).
  split; [exact Hstart|].
  split; [reflexivity|].
  apply (first_execution_offers_the_form (Sample.chat_with None) Hstart).
  reflexivity.
Defined.

(** X3.  The widgets of the form follow the species (lines 80-118).  The
    dog picker is drawn exactly for "Dog", the cat picker exactly for
    "Cat", the field "Please type the breed" exactly when the picker of a
    dog or a cat stands on "Other", the field "Please type the
    breed/species" exactly for "Bird", "Rabbit" and "Other"; name, species,
    age, the three text areas and the button are drawn always. *)
Theorem form_widgets_follow_species fe w :
  let species := selectbox fe "What species are they?" species_options in
  exists widgets,
    pet_info_form fe w
    = (Returned (entered fe),
       with_page (fun pg => (pg ++ [Form "pet_info_form" widgets])%list) w)
    /\ existsb (has_label "Select Dog Breed") widgets = (species =? "Dog")
    /\ existsb (has_label "Select Cat Breed") widgets = (species =? "Cat")
    /\ existsb (has_label "Please type the breed") widgets
       = ((species =? "Dog")
            && (selectbox fe "Select Dog Breed" dog_breeds =? "Other")
          || (species =? "Cat")
               && (selectbox fe "Select Cat Breed" cat_breeds =? "Other"))
    /\ existsb (has_label "Please type the breed/species") widgets
       = str_in species ["Bird"; "Rabbit"; "Other"]
    /\ forallb (fun label => existsb (has_label label) widgets)
         ["What's their name?"; "What species are they?";
          "How old are they?"; "Behavior/Health concerns?"; "Current diet?";
          "Current exercise routine?"; "Save & Continue"]
       = true.
Proof.
  intros species. subst species.
  destruct w as [s mem pg jr].
  unfold pet_info_form, entered, breed_picker, picked_breed.
  step_script.
  destruct (selectbox fe "What species are they?" species_options =? "Dog")
    eqn:Hdog.
  - apply String.eqb_eq in Hdog. rewrite Hdog.
    destruct (selectbox fe "Select Dog Breed" dog_breeds =? "Other");
      eexists; repeat split; reflexivity.
  - destruct (selectbox fe "What species are they?" species_options =? "Cat")
      eqn:Hcat.
    + apply String.eqb_eq in Hcat. rewrite Hcat.
      destruct (selectbox fe "Select Cat Breed" cat_breeds =? "Other");
        eexists; repeat split; reflexivity.
    + destruct (str_in _ _) eqn:Hfree; eexists; repeat split;
        cbn [existsb has_label forallb app orb andb String.eqb Ascii.eqb
             Bool.eqb];
        try reflexivity; rewrite ?Hdog, ?Hcat; reflexivity.
Qed.

(** X4.  While the form has not been saved, every execution that starts
    draws the intake form and no chat box, pressed button or not, accepted
    or not, and sends nothing to the model: after a rejected submission the
    form is there again to be filled in. *)
Theorem unsubmitted_session_offers_the_form env llm fe profile history :
  starts env llm ->
  let w := snd (run_script env fe (established false profile history)) in
  existsb is_form (page w) = true
  /\ existsb is_chat_input (page w) = false
  /\ existsb is_invocation (journal w) = false.
Proof.
  intros Hstart w. subst w.
  destruct (run_form_spec fe profile history Hstart) as [widgets Hrun].
  rewrite Hrun. cbv zeta.
  destruct (form_submit_button fe "Save & Continue");
    [destruct (incomplete (entered fe))|]; repeat split; reflexivity.
Qed.

Lemma unsubmitted_session_offers_the_form_witness :
  starts (Sample.env_with Sample.advice) Sample.advice
  /\ existsb is_form
       (page (snd (run_script (Sample.env_with Sample.advice)
                     (Sample.form_with "Dog" "Please select..." "" "3")
                     (established false "" []))))
     = true.
Proof.
  assert (Hstart : starts (Sample.env_with Sample.advice) Sample.advice)
    by (exists "secret"; repeat split; reflexivity).
  split; [exact Hstart|].
  destruct (unsubmitted_session_offers_the_form
              (Sample.form_with "Dog" "Please select..." "" "3") "" []
              Hstart) as [Hform _].
  exact Hform.
Defined.

(** X5.  The form is marked as saved by a complete submission only: when
    an execution in a session that has not saved the form leaves
    [form_submitted] true, then the script started, the button was
    pressed, the species is not the placeholder, the breed is neither
    empty nor the placeholder, the age is not empty, and the execution
    ended by asking for a rerun. *)
Theorem saved_only_by_complete_submission env fe profile history :
  form_submitted
    (session_state (snd (run_script env fe (established false profile history))))
  = Some true ->
  (exists llm, starts env llm)
  /\ form_submit_button fe "Save & Continue" = true
  /\ form_species (entered fe) <> "Please select..."
  /\ form_breed (entered fe) <> ""
  /\ form_breed (entered fe) <> "Please select..."
  /\ form_age (entered fe) <> ""
  /\ fst (run_script env fe (established false profile history))
     = Interrupted RerunException.
Proof.
  rewrite run_script_spec.
  destruct (boot env) as [msg|llm] eqn:Hboot; [discriminate|].
  apply starts_boot in Hboot.
  cbn [form_submitted established]. rewrite with_defaults_established.
  destruct (form_ui_spec fe false profile history) as [widgets Hui].
  rewrite Hui. cbv zeta.
  destruct (form_submit_button fe "Save & Continue"); [|discriminate].
  destruct (incomplete (entered fe)) eqn:Hcomplete; [discriminate|].
  intros _. apply incomplete_false in Hcomplete.
  destruct Hcomplete as (Hspecies & Hbreed & Hplaceholder & Hage).
  split; [exists llm; exact Hboot|]. auto 10.
Qed.

Lemma saved_only_by_complete_submission_witness :
  form_submitted
    (session_state
       (snd (run_script (Sample.env_with Sample.advice)
               (Sample.form_with "Bird" "" "Cockatiel" "2")
               (established false "" []))))
  = Some true
  /\ form_breed (entered (Sample.form_with "Bird" "" "Cockatiel" "2")) <> ""
  /\ fst (run_script (Sample.env_with Sample.advice)
            (Sample.form_with "Bird" "" "Cockatiel" "2")
            (established false "" []))
     = Interrupted RerunException.
Proof.
  split; [reflexivity|].
  destruct (@saved_only_by_complete_submission
              (Sample.env_with Sample.advice)
              (Sample.form_with "Bird" "" "Cockatiel" "2") "" [] eq_refl)
    as (_ & _ & _ & Hbreed & _ & _ & Hrerun).
  split; [exact Hbreed | exact Hrerun].
Defined.

Lemma listed_breed_not_empty pick breeds :
  In pick breeds -> breeds = dog_breeds \/ breeds = cat_breeds -> pick <> "".
Proof.
  intros Hin [-> | ->]; cbn in Hin;
    repeat (destruct Hin as [<- | Hin]; [discriminate|]); destruct Hin.
Qed.

(** X6.  Every breed the pickers list, other than the placeholder and
    "Other", is taken as it stands: for a dog or a cat with such a pick and
    a non-empty age the submission is saved and the profile carries the
    picked breed. *)
Theorem listed_breed_is_saved env llm fe profile history label breeds pick :
  starts env llm ->
  (selectbox fe "What species are they?" species_options = "Dog"
   /\ label = "Select Dog Breed" /\ breeds = dog_breeds)
  \/ (selectbox fe "What species are they?" species_options = "Cat"
      /\ label = "Select Cat Breed" /\ breeds = cat_breeds) ->
  selectbox fe label breeds = pick ->
  In pick breeds ->
  pick <> "Please select..." ->
  pick <> "Other" ->
  text_input fe "How old are they?" <> "" ->
  form_submit_button fe "Save & Continue" = true ->
  form_breed (entered fe) = pick
  /\ session_state
       (snd (run_script env fe (established false profile history)))
     = established true (profile_text (entered fe)) (history ++ [greeting]).
Proof.
  intros Hstart Hspecies Hpick Hlisted Hplaceholder Hother Hage Hsubmit.
  assert (Hfilled : pick <> "").
  { apply (listed_breed_not_empty Hlisted).
    destruct Hspecies as [(_ & _ & ->) | (_ & _ & ->)]; auto. }
  assert (Hbreed : form_breed (entered fe) = pick).
  { apply String.eqb_neq in Hother.
    unfold entered, picked_breed. cbn [form_breed].
    destruct Hspecies as [(Hs & -> & ->) | (Hs & -> & ->)];
      rewrite Hs, Hpick, Hother; reflexivity. }
  split; [exact Hbreed|].
  assert (Hcomplete : incomplete (entered fe) = false).
  { apply incomplete_false. rewrite Hbreed.
    repeat split; auto.
    unfold entered; cbn [form_species].
    destruct Hspecies as [(-> & _) | (-> & _)]; discriminate. }
  destruct (run_form_spec fe profile history Hstart) as [widgets Hrun].
  rewrite Hrun. cbv zeta. rewrite Hsubmit, Hcomplete. reflexivity.
Qed.

Lemma listed_breed_is_saved_witness :
  starts (Sample.env_with Sample.advice) Sample.advice
  /\ In "Maine Coon" cat_breeds
  /\ form_breed (entered (Sample.form_with "Cat" "Maine Coon" "" "7"))
     = "Maine Coon"
  /\ form_submitted
       (session_state
          (snd (run_script (Sample.env_with Sample.advice)
                  (Sample.form_with "Cat" "Maine Coon" "" "7")
                  (established false "" []))))
     = Some true.
Proof.
  assert (Hstart : starts (Sample.env_with Sample.advice) Sample.advice)
    by (exists "secret"; repeat split; reflexivity).
  assert (Hlisted : In "Maine Coon" cat_breeds) by (cbn; auto).
  split; [exact Hstart|].
  split; [exact Hlisted|].
  destruct (@listed_breed_is_saved
              (Sample.env_with Sample.advice) Sample.advice
              (Sample.form_with "Cat" "Maine Coon" "" "7") "" []
              "Select Cat Breed" cat_breeds "Maine Coon" Hstart
              (or_intror (conj eq_refl (conj eq_refl eq_refl)))
              eq_refl Hlisted)
    as [Hbreed Hstate]; try discriminate; try reflexivity.
  split; [exact Hbreed|].
  rewrite Hstate. reflexivity.
Defined.

(** X7.  For the species "Bird", "Rabbit" and "Other" the breed is the text
    typed into "Please type the breed/species" (line 111), and the
    submission is saved exactly when that text is neither empty nor the
    placeholder and the age is not empty; otherwise the session state
    stays as it was. *)
Theorem typed_species_breed env llm fe profile history :
  starts env llm ->
  In (selectbox fe "What species are they?" species_options)
    ["Bird"; "Rabbit"; "Other"] ->
  form_submit_button fe "Save & Continue" = true ->
  let typed := text_input fe "Please type the breed/species" in
  form_breed (entered fe) = typed
  /\ session_state
       (snd (run_script env fe (established false profile history)))
     = if negb (truthy typed) || (typed =? "Please select...")
          || negb (truthy (text_input fe "How old are they?"))
       then established false profile history
       else established true (profile_text (entered fe))
              (history ++ [greeting]).
Proof.
  intros Hstart Hspecies Hsubmit typed.
  assert (Hentered :
            form_species (entered fe) <> "Please select..."
            /\ form_breed (entered fe) = typed).
  { unfold entered, typed. cbn [form_species form_breed].
    cbn in Hspecies.
    destruct Hspecies as [<- | [<- | [<- | []]]]; split;
      try discriminate; reflexivity. }
  destruct Hentered as [Hconcrete Hbreed].
  split; [exact Hbreed|].
  destruct (run_form_spec fe profile history Hstart) as [widgets Hrun].
  rewrite Hrun. cbv zeta. rewrite Hsubmit.
  apply String.eqb_neq in Hconcrete.
  unfold incomplete. rewrite Hconcrete, Hbreed.
  change (form_age (entered fe)) with (text_input fe "How old are they?").
  cbn [orb].
  destruct (negb (truthy typed) || (typed =? "Please select...")
            || negb (truthy (text_input fe "How old are they?")));
    reflexivity.
Qed.

Lemma typed_species_breed_witness :
  starts (Sample.env_with Sample.advice) Sample.advice
  /\ In (selectbox (Sample.form_with "Rabbit" "" "Holland Lop" "2")
           "What species are they?" species_options)
       ["Bird"; "Rabbit"; "Other"]
  /\ form_submit_button (Sample.form_with "Rabbit" "" "Holland Lop" "2")
       "Save & Continue" = true
  /\ form_breed (entered (Sample.form_with "Rabbit" "" "Holland Lop" "2"))
     = "Holland Lop".
Proof.
  assert (Hstart : starts (Sample.env_with Sample.advice) Sample.advice)
    by (exists "secret"; repeat split; reflexivity).
  assert (Hspecies :
            In (selectbox (Sample.form_with "Rabbit" "" "Holland Lop" "2")
                  "What species are they?" species_options)
              ["Bird"; "Rabbit"; "Other"])
    by (right; left; reflexivity).
  split; [exact Hstart|].
  split; [exact Hspecies|].
  split; [reflexivity|].
  destruct (typed_species_breed
              (Sample.form_with "Rabbit" "" "Holland Lop" "2") "" []
              Hstart Hspecies eq_refl) as [Hbreed _].
  exact Hbreed.
Defined.

(** X8.  A chat input that is the empty string counts as no input (the
    test of line 147 is on the truth of the text): nothing is appended, the
    model is not called, and the page is the chat view. *)
Theorem empty_chat_input_is_ignored env llm fe profile history :
  starts env llm ->
  chat_input fe "Type your request..." = Some "" ->
  run_script env fe (established true profile history)
  = (Returned tt,
     {| session_state := established true profile history; memory := [];
        page := chat_view profile history; journal := [] |}).
Proof.
  intros Hstart Hempty.
  rewrite (run_chat_spec fe profile history Hstart), Hempty. reflexivity.
Qed.

Lemma empty_chat_input_is_ignored_witness :
  starts (Sample.env_with Sample.advice) Sample.advice
  /\ chat_input (Sample.chat_with (Some "")) "Type your request..." = Some ""
  /\ run_script (Sample.env_with Sample.advice) (Sample.chat_with (Some ""))
       (established true Sample.ragdoll [greeting])
     = (Returned tt,
        {| session_state := established true Sample.ragdoll [greeting];
           memory := [];
           page := chat_view Sample.ragdoll [greeting]; journal := [] |}).
Proof.
  assert (Hstart : starts (Sample.env_with Sample.advice) Sample.advice)
    by (exists "secret"; repeat split; reflexivity).
  split; [exact Hstart|].
  split; [reflexivity|].
  apply (empty_chat_input_is_ignored (Sample.chat_with (Some ""))
           Sample.ragdoll [greeting] Hstart).
  reflexivity.
Defined.

(** X9.  What reaches the model.  When an execution sends a prompt, the
    form had been saved, the chat box held a non-empty request, the prompt
    is the template filled with the stored profile, an empty transcript
    and that request, and it is the only prompt of the execution.  So an
    execution of the form, rejected or accepted, never calls the model. *)
Theorem model_is_asked_once_with_profile_and_request env fe submitted profile
  history sent :
  In (Invoked sent)
    (journal (snd (run_script env fe (established submitted profile history)))) ->
  submitted = true
  /\ exists request,
       chat_input fe "Type your request..." = Some request
       /\ request <> ""
       /\ sent = prompt_text profile "" request
       /\ filter is_invocation
            (journal
               (snd (run_script env fe
                       (established submitted profile history))))
          = [Invoked sent].
Proof.
  rewrite run_script_spec.
  destruct (boot env) as [msg|llm]; [intros []|].
  cbn [form_submitted established]. rewrite with_defaults_established.
  destruct submitted.
  - unfold established. rewrite chat_interface_spec. cbv zeta.
    destruct (chat_input fe "Type your request...") as [request|];
      [|intros []].
    destruct (truthy request) eqn:Hrequest; [|intros []].
    apply truthy_true in Hrequest.
    rewrite chat_turn_spec. cbv zeta.
    change (buffer_as_str buffer_memory []) with "".
    destruct (llm _); cbn [snd journal app In filter is_invocation];
      intros Hin; (split; [reflexivity|]); exists request;
      repeat (destruct Hin as [Hin | Hin];
              [try discriminate Hin;
               injection Hin as <-; repeat split; auto|]);
      destruct Hin.
  - destruct (form_ui_spec fe false profile history) as [widgets Hui].
    rewrite Hui. cbv zeta.
    destruct (form_submit_button fe "Save & Continue"); [|intros []].
    destruct (incomplete (entered fe)); cbn [snd journal In];
      [intros [] | intros [Hin | []]; discriminate Hin].
Qed.

Lemma model_is_asked_once_with_profile_and_request_witness :
  In (Invoked (prompt_text Sample.ragdoll "" "suggest a diet"))
    (journal
       (snd (run_script (Sample.env_with Sample.advice)
               (Sample.chat_with (Some "suggest a diet"))
               (established true Sample.ragdoll [greeting]))))
  /\ filter is_invocation
       (journal
          (snd (run_script (Sample.env_with Sample.advice)
                  (Sample.chat_with (Some "suggest a diet"))
                  (established true Sample.ragdoll [greeting]))))
     = [Invoked (prompt_text Sample.ragdoll "" "suggest a diet")].
Proof.
  assert (Hin : In (Invoked (prompt_text Sample.ragdoll "" "suggest a diet"))
                  (journal
                     (snd (run_script (Sample.env_with Sample.advice)
                             (Sample.chat_with (Some "suggest a diet"))
                             (established true Sample.ragdoll [greeting])))))
    by (right; left; reflexivity).
  split; [exact Hin|].
  destruct (@model_is_asked_once_with_profile_and_request
              (Sample.env_with Sample.advice)
              (Sample.chat_with (Some "suggest a diet"))
              true Sample.ragdoll [greeting]
              (prompt_text Sample.ragdoll "" "suggest a diet") Hin)
    as (_ & request & _ & _ & _ & Honce).
  exact Honce.
Defined.

(** X10.  One chat turn that the model answers (lines 147-161): the page
    is the chat view of the earlier messages, then the bubble of the
    request, the spinner, and the bubble of the reply; the request and the
    text the model returned are appended in that order, and the memory
    object of the execution holds that one pair. *)
Theorem answered_turn_shows_request_then_reply env llm fe profile history
  request text :
  starts env llm ->
  chat_input fe "Type your request..." = Some request ->
  request <> "" ->
  llm (prompt_text profile "" request) = inr text ->
  run_script env fe (established true profile history)
  = (Returned tt,
     {| session_state :=
          established true profile
            (history ++ [user_says request; assistant_says text]);
        memory := [HumanMessage request; AIMessage text];
        page :=
          (chat_view profile history
           ++ [ChatMessage "user" [WriteText request];
               Spinner "Thinking..." [];
               ChatMessage "assistant" [WriteText text]])%list;
        journal :=
          [Appended (user_says request);
           Invoked (prompt_text profile "" request);
           Appended (assistant_says text)] |}).
Proof.
  intros Hstart Hinput Hrequest Hreply.
  rewrite (run_chat_spec fe profile history Hstart), Hinput.
  cbv zeta. apply truthy_true in Hrequest. rewrite Hrequest.
  unfold established at 1. rewrite chat_turn_spec. cbv zeta.
  change (buffer_as_str buffer_memory []) with "".
  rewrite Hreply, <- !app_assoc. reflexivity.
Qed.

Lemma answered_turn_shows_request_then_reply_witness :
  starts (Sample.env_with Sample.advice) Sample.advice
  /\ chat_input (Sample.chat_with (Some "suggest a diet"))
       "Type your request..." = Some "suggest a diet"
  /\ "suggest a diet" <> ""
  /\ Sample.advice (prompt_text Sample.ragdoll "" "suggest a diet")
     = inr "Two meals a day."
  /\ session_state
       (snd (run_script (Sample.env_with Sample.advice)
               (Sample.chat_with (Some "suggest a diet"))
               (established true Sample.ragdoll [greeting])))
     = established true Sample.ragdoll
         [greeting; user_says "suggest a diet";
          assistant_says "Two meals a day."].
Proof.
  assert (Hstart : starts (Sample.env_with Sample.advice) Sample.advice)
    by (exists "secret"; repeat split; reflexivity).
  assert (Hrequest : "suggest a diet" <> "") by discriminate.
  split; [exact Hstart|].
  split; [reflexivity|].
  split; [exact Hrequest|].
  split; [reflexivity|].
  rewrite (@answered_turn_shows_request_then_reply
             (Sample.env_with Sample.advice) Sample.advice
             (Sample.chat_with (Some "suggest a diet")) Sample.ragdoll
             [greeting] "suggest a diet" "Two meals a day."
             Hstart eq_refl Hrequest eq_refl).
  reflexivity.
Defined.

Lemma submitted_step_shape env fe profile history :
  exists later,
    session_state (snd (run_script env fe (established true profile history)))
    = established true profile (history ++ later)
    /\ turn_addition later.
Proof.
  unfold turn_addition.
  rewrite run_script_spec.
  destruct (boot env) as [msg|llm].
  - exists []. rewrite app_nil_r. auto.
  - cbn [form_submitted established]. rewrite with_defaults_established.
    unfold established at 1. rewrite chat_interface_spec. cbv zeta.
    destruct (chat_input fe "Type your request...") as [request|];
      [destruct (truthy request)|].
    + rewrite chat_turn_spec. cbv zeta.
      destruct (llm _) as [e|text].
      * exists [user_says request]. cbn [snd session_state]. eauto.
      * exists [user_says request; assistant_says text].
        cbn [snd session_state]. rewrite <- app_assoc. eauto 6.
    + exists []. rewrite app_nil_r. auto.
    + exists []. rewrite app_nil_r. auto.
Qed.

Lemma turn_addition_roles later :
  turn_addition later -> Forall known_role later /\ length later <= 2.
Proof.
  unfold known_role.
  intros [-> | [(request & ->) | (request & text & ->)]]; cbn;
    split; auto.
Qed.

Lemma session_invariant_step env fe s :
  session_invariant s ->
  session_invariant (session_state (snd (run_script env fe s))).
Proof.
  unfold session_invariant.
  intros [-> | [-> | (fe0 & chat & -> & Hcomplete & Hroles)]].
  - rewrite run_script_spec.
    destruct (boot env) as [msg|llm]; [left; reflexivity|].
    right. cbn [form_submitted fresh_session].
    change (with_defaults fresh_session) with (established false "" []).
    destruct (form_ui_spec fe false "" []) as [widgets Hui].
    rewrite Hui. cbv zeta.
    destruct (form_submit_button fe "Save & Continue"); [|left; reflexivity].
    destruct (incomplete (entered fe)) eqn:Hentered; [left; reflexivity|].
    right. exists fe, []. auto.
  - right. rewrite run_script_spec.
    destruct (boot env) as [msg|llm]; [left; reflexivity|].
    cbn [form_submitted established]. rewrite with_defaults_established.
    destruct (form_ui_spec fe false "" []) as [widgets Hui].
    rewrite Hui. cbv zeta.
    destruct (form_submit_button fe "Save & Continue"); [|left; reflexivity].
    destruct (incomplete (entered fe)) eqn:Hentered; [left; reflexivity|].
    right. exists fe, []. auto.
  - right. right.
    destruct (submitted_step_shape env fe (profile_text (entered fe0))
                (greeting :: chat)) as (later & -> & Hlater).
    exists fe0, (chat ++ later)%list.
    split; [reflexivity|]. split; [exact Hcomplete|].
    apply Forall_app. split; [exact Hroles|].
    apply (turn_addition_roles Hlater).
Qed.

(** X11.  What a session can hold, whatever the executions were.  Until
    the form is saved, no key is assigned or they hold [False], the empty
    profile and no message.  Once it is saved, the profile is the text of
    a form that passed the check of line 121, the first message is the
    greeting of the assistant, and every later message has the role "user"
    or "assistant". *)
Theorem session_holds_complete_profile_and_greeting_first runs :
  session_invariant (run_session runs fresh_session).
Proof.
  assert (Hfrom : forall s,
            session_invariant s -> session_invariant (run_session runs s)).
  { induction runs as [|[env fe] runs IH]; intros s Hs; [exact Hs|].
    cbn [run_session]. apply IH, session_invariant_step, Hs. }
  apply Hfrom. left. reflexivity.
Qed.

(** X12.  The message list is append-only: one execution, in whatever
    state of the form, with whatever environment and widgets, leaves the
    stored messages followed by at most two new ones, each with the role
    "user" or "assistant", and leaves a profile assigned. *)
Theorem messages_are_append_only env fe submitted profile history :
  exists saved later,
    session_state
      (snd (run_script env fe (established submitted profile history)))
    = established saved
        (if negb submitted && saved then profile_text (entered fe)
         else profile)
        (history ++ later)
    /\ length later <= 2
    /\ Forall known_role later.
Proof.
  destruct submitted.
  - destruct (submitted_step_shape env fe profile history)
      as (later & -> & Hlater).
    exists true, later. split; [reflexivity|].
    destruct (turn_addition_roles Hlater). auto.
  - rewrite run_script_spec.
    destruct (boot env) as [msg|llm].
    + exists false, []. rewrite app_nil_r. cbn. auto.
    + cbn [form_submitted established]. rewrite with_defaults_established.
      destruct (form_ui_spec fe false profile history) as [widgets Hui].
      rewrite Hui. cbv zeta.
      destruct (form_submit_button fe "Save & Continue");
        [destruct (incomplete (entered fe))|].
      * exists false, []. rewrite app_nil_r. cbn. auto.
      * exists true, [greeting]. cbn. repeat split; auto.
        constructor; [right; reflexivity | constructor].
      * exists false, []. rewrite app_nil_r. cbn. auto.
Qed.

(** X13.  The script raises no error of its own.  An execution returns,
    or stops at the start (lines 23 and 28), or asks for a rerun (line
    133), or lets through the exception the model call raised; no
    [AttributeError] of the session state and no [KeyError] of the chain
    comes out, whatever keys the session state holds. *)
Theorem script_raises_only_what_the_model_raises env fe s :
  fst (run_script env fe s) = Returned tt
  \/ fst (run_script env fe s) = Interrupted StopException
  \/ fst (run_script env fe s) = Interrupted RerunException
  \/ exists llm sent e,
       starts env llm
       /\ llm sent = inl e
       /\ fst (run_script env fe s) = Interrupted (Exception e).
Proof.
  rewrite run_script_spec.
  destruct (boot env) as [msg|llm] eqn:Hboot; [auto|].
  apply starts_boot in Hboot.
  destruct s as [fs pi ms].
  set (b := match fs with Some b => b | None => false end).
  set (p := match pi with Some p => p | None => "" end).
  set (h := match ms with Some h => h | None => [] end).
  change (with_defaults _) with (established b p h).
  cbn [form_submitted]. fold b.
  destruct b.
  - unfold established. rewrite chat_interface_spec. cbv zeta.
    destruct (chat_input fe "Type your request...") as [request|];
      [destruct (truthy request)|]; auto.
    rewrite chat_turn_spec. cbv zeta.
    destruct (llm _) as [e|text] eqn:Hcall; [|auto].
    right. right. right. exists llm. eauto.
  - destruct (form_ui_spec fe false p h) as [widgets Hui].
    rewrite Hui. cbv zeta.
    destruct (form_submit_button fe "Save & Continue");
      [destruct (incomplete (entered fe))|]; auto.
Qed.

(** X14.  A rerun does not loop.  When an execution asks for a rerun (line
    133), the execution that follows, on the session state it left and
    with whatever environment and widgets, does not ask for another: the
    form has been saved, and the chat branch has no rerun. *)
Theorem rerun_is_not_repeated env env' fe fe' submitted profile history :
  fst (run_script env fe (established submitted profile history))
  = Interrupted RerunException ->
  form_submitted
    (session_state
       (snd (run_script env fe (established submitted profile history))))
  = Some true
  /\ fst (run_script env' fe'
            (session_state
               (snd (run_script env fe
                       (established submitted profile history)))))
     <> Interrupted RerunException.
Proof.
  intros Hrerun.
  assert (Hsaved :
            session_state
              (snd (run_script env fe (established submitted profile history)))
            = established true (profile_text (entered fe))
                (history ++ [greeting])).
  { revert Hrerun. rewrite run_script_spec.
    destruct (boot env) as [msg|llm]; [discriminate|].
    cbn [form_submitted established]. rewrite with_defaults_established.
    destruct submitted.
    - unfold established. rewrite chat_interface_spec. cbv zeta.
      destruct (chat_input fe "Type your request...") as [request|];
        [destruct (truthy request)|]; try discriminate.
      rewrite chat_turn_spec. cbv zeta. destruct (llm _); discriminate.
    - destruct (form_ui_spec fe false profile history) as [widgets Hui].
      rewrite Hui. cbv zeta.
      destruct (form_submit_button fe "Save & Continue");
        [destruct (incomplete (entered fe))|]; try discriminate.
      reflexivity. }
  rewrite Hsaved. split; [reflexivity|].
  rewrite run_script_spec.
  destruct (boot env') as [msg|llm]; [discriminate|].
  cbn [form_submitted established]. rewrite with_defaults_established.
  unfold established. rewrite chat_interface_spec. cbv zeta.
  destruct (chat_input fe' "Type your request...") as [request|];
    [destruct (truthy request)|]; try discriminate.
  rewrite chat_turn_spec. cbv zeta. destruct (llm _); discriminate.
Qed.

Lemma rerun_is_not_repeated_witness :
  fst (run_script (Sample.env_with Sample.advice)
         (Sample.form_with "Dog" "Poodle" "" "4") (established false "" []))
  = Interrupted RerunException
  /\ fst (run_script (Sample.env_with Sample.advice)
            (Sample.form_with "Dog" "Poodle" "" "4")
            (session_state
               (snd (run_script (Sample.env_with Sample.advice)
                       (Sample.form_with "Dog" "Poodle" "" "4")
                       (established false "" [])))))
     <> Interrupted RerunException.
Proof.
  split; [reflexivity|].
  destruct (@rerun_is_not_repeated
              (Sample.env_with Sample.advice) (Sample.env_with Sample.advice)
              (Sample.form_with "Dog" "Poodle" "" "4")
              (Sample.form_with "Dog" "Poodle" "" "4")
              false "" [] eq_refl) as [_ Hsettled].
  exact Hsettled.
Defined.
